(** * caer's [setup.py]: a shallow embedding of the build script

    The script is modelled the way Python runs it: the module body is a
    sequence of statements executed top to bottom, each of which either
    completes or raises.  File contents, the output streams and the calls
    made to collaborators outside the script (the cythonize subprocess and
    setuptools' [setup]) are recorded in an explicit machine state, so that
    statements about what happened before a failure can be read off the
    final state.

    Text is [string]; a character stands for the code point with the same
    number, so the development covers text whose code points are below 256.
    Paths and newlines are those of a POSIX system.  The file store holds
    what the script's own statements read and write: what the cythonize
    child and [setup] do to the files is theirs and is not recorded.  The
    script is run from its source tree, where the directory of the meta
    module exists and can be written.
    Dictionaries that the script only looks keys up in ([copt], the parsed
    configuration, the file store) are [gmap]s; the [EXTENSIONS] table is
    an association list, because the script iterates over it in order. *)

From Stdlib Require Import ZArith Strings.String Strings.Ascii Numbers.DecimalString.
From stdpp Require Import gmap strings list fin_maps.

Open Scope string_scope.

(** Appending to a text that starts with a known character is computed
    by [simpl] throughout. *)
#[local] Arguments String.append !s1 s2 : simpl nomatch.

(** ** Python text primitives used by the script *)

Module PyStr.

Definition nl : ascii := ascii_of_nat 10.
Definition cr : ascii := ascii_of_nat 13.
Definition squote : ascii := ascii_of_nat 39.
Definition dquote : ascii := ascii_of_nat 34.
Definition backslash : ascii := ascii_of_nat 92.

(** [str.isspace] on one code point below 256: TAB..CR, FS..US, SPACE,
    NEL and NBSP. *)
Definition is_space (c : ascii) : bool :=
  let n := nat_of_ascii c in
  (((9 <=? n) && (n <=? 13)) || ((28 <=? n) && (n <=? 32))
   || (n =? 133) || (n =? 160))%nat.

(** [s.lstrip()] *)
Fixpoint lstrip (s : string) : string :=
  match s with
  | EmptyString => EmptyString
  | String c s' => if is_space c then lstrip s' else s
  end.

(** [s.rstrip()] *)
Fixpoint rstrip (s : string) : string :=
  match s with
  | EmptyString => EmptyString
  | String c s' =>
      match rstrip s' with
      | EmptyString => if is_space c then EmptyString else String c EmptyString
      | r => String c r
      end
  end.

(** [s.strip()] *)
Definition strip (s : string) : string := rstrip (lstrip s).

(** Every character of [s] is whitespace. *)
Fixpoint all_space (s : string) : bool :=
  match s with
  | EmptyString => true
  | String c s' => is_space c && all_space s'
  end.

Definition first_char (s : string) : option ascii :=
  match s with
  | EmptyString => None
  | String c _ => Some c
  end.

Fixpoint last_char (s : string) : option ascii :=
  match s with
  | EmptyString => None
  | String c EmptyString => Some c
  | String _ s' => last_char s'
  end.

(** [s.startswith(p)] *)
Fixpoint startswith (p s : string) : bool :=
  match p, s with
  | EmptyString, _ => true
  | String a p', String b s' => if Ascii.eqb a b then startswith p' s' else false
  | String _ _, EmptyString => false
  end.

(** [s.split(sep)] for a non-empty separator: the text is scanned from
    the left; where [sep] starts, the current piece is closed and the
    separator skipped.  [skip] counts the characters of a separator
    still to be passed over, [cur] is the piece being collected. *)
Fixpoint split_go (sep : string) (skip : nat) (cur : string) (s : string)
  : list string :=
  match s with
  | EmptyString => [cur]
  | String c s' =>
      match skip with
      | S k => split_go sep k cur s'
      | O =>
          if startswith sep s
          then cur :: split_go sep (String.length sep - 1) EmptyString s'
          else split_go sep 0 (cur +:+ String c EmptyString) s'
      end
  end.

Definition split (sep s : string) : list string := split_go sep 0 EmptyString s.

(** [s.split()]: the pieces between runs of whitespace. *)
Fixpoint split_ws_go (cur : string) (s : string) : list string :=
  match s with
  | EmptyString =>
      match cur with EmptyString => [] | _ => [cur] end
  | String c s' =>
      if is_space c then
        match cur with
        | EmptyString => split_ws_go EmptyString s'
        | _ => cur :: split_ws_go EmptyString s'
        end
      else split_ws_go (cur +:+ String c EmptyString) s'
  end.

Definition split_ws (s : string) : list string := split_ws_go EmptyString s.

(** [sep.join(l)] *)
Fixpoint join (sep : string) (l : list string) : string :=
  match l with
  | [] => EmptyString
  | [x] => x
  | x :: l' => x +:+ sep +:+ join sep l'
  end.

(** Iterating over the text of a file as the text layer delivers it:
    it is cut after every newline; a last line without a newline is
    yielded as it is. *)
Fixpoint lines_go (cur : string) (s : string) : list string :=
  match s with
  | EmptyString =>
      match cur with EmptyString => [] | _ => [cur] end
  | String c s' =>
      if Ascii.eqb c nl
      then (cur +:+ String c EmptyString) :: lines_go EmptyString s'
      else lines_go (cur +:+ String c EmptyString) s'
  end.

(** A file opened with [open(path, 'r')] is read with universal
    newlines: CR LF and a CR on its own both arrive as one LF. *)
Fixpoint universal_newlines (s : string) : string :=
  match s with
  | EmptyString => EmptyString
  | String c s' =>
      if Ascii.eqb c cr then
        match s' with
        | String c' _ =>
            if Ascii.eqb c' nl then universal_newlines s'
            else String nl (universal_newlines s')
        | EmptyString => String nl EmptyString
        end
      else String c (universal_newlines s')
  end.

(** [for line in a] on a file with the stored text [content]. *)
Definition file_lines (content : string) : list string :=
  lines_go EmptyString (universal_newlines content).

(** [c.lower()] on one code point below 256: A..Z and the upper-case
    letters of Latin-1 (all of 192..222 but the multiplication sign). *)
Definition lower_char (c : ascii) : ascii :=
  let n := nat_of_ascii c in
  if (((65 <=? n) && (n <=? 90))
      || ((192 <=? n) && (n <=? 222) && negb (n =? 215)))%nat
  then ascii_of_nat (n + 32) else c.

(** [s.lower()] *)
Fixpoint lower (s : string) : string :=
  match s with
  | EmptyString => EmptyString
  | String c s' => String (lower_char c) (lower s')
  end.

(** [str(n)] for an [int] *)
Definition str_of_int (n : Z) : string := NilZero.string_of_int (Z.to_int n).

(** [str(b)] for a [bool] *)
Definition str_of_bool (b : bool) : string := if b then "True" else "False".

Definition hex_digit (n : nat) : ascii :=
  if (n <? 10)%nat then ascii_of_nat (48 + n) else ascii_of_nat (87 + n).

(** Whether [repr] writes the code point as it is. *)
Definition is_printable (c : ascii) : bool :=
  let n := nat_of_ascii c in
  (((32 <=? n) && (n <? 127)) || ((161 <=? n) && negb (n =? 173)))%nat.

Fixpoint contains_char (c : ascii) (s : string) : bool :=
  match s with
  | EmptyString => false
  | String a s' => Ascii.eqb a c || contains_char c s'
  end.

Definition repr_char (quote c : ascii) : string :=
  if Ascii.eqb c quote || Ascii.eqb c backslash
  then String backslash (String c EmptyString)
  else if Ascii.eqb c (ascii_of_nat 9) then String backslash "t"
  else if Ascii.eqb c nl then String backslash "n"
  else if Ascii.eqb c (ascii_of_nat 13) then String backslash "r"
  else if is_printable c then String c EmptyString
  else
    let n := nat_of_ascii c in
    String backslash
      (String "x" (String (hex_digit (n / 16)) (String (hex_digit (n mod 16)) EmptyString))).

Fixpoint repr_body (quote : ascii) (s : string) : string :=
  match s with
  | EmptyString => EmptyString
  | String c s' => repr_char quote c +:+ repr_body quote s'
  end.

(** [repr(s)] for a [str]: single quotes, unless the text has a single
    quote and no double quote. *)
Definition repr_str (s : string) : string :=
  let quote :=
    if contains_char squote s && negb (contains_char dquote s)
    then dquote else squote in
  String quote (repr_body quote s) +:+ String quote EmptyString.

(** [str(l)] for a [list] of [str] *)
Definition str_of_list (l : list string) : string :=
  "[" +:+ join ", " (map repr_str l) +:+ "]".

End PyStr.

(** ** Exceptions and results *)

Inductive exn : Type :=
| SyntaxError (msg : string)
| SystemExit (code : Z)
| KeyError (key : string)
| InterpolationSyntaxError (option : string) (msg : string)
| InterpolationMissingOptionError (option : string) (reference : string)
| InterpolationDepthError (option : string)
| AssertionError (msg : string)
| FileNotFoundError (path : string)
| RuntimeError (msg : string)
| TypeError (msg : string)
| ValueError (msg : string)
| BackendError (msg : string).

Inductive result (A : Type) : Type :=
| Ok (a : A)
| Raise (e : exn).

Arguments Ok {A} a.
Arguments Raise {A} e.

Definition is_ok {A} (r : result A) : bool :=
  match r with Ok _ => true | Raise _ => false end.

Definition result_map {A B} (f : A -> B) (r : result A) : result B :=
  match r with Ok a => Ok (f a) | Raise e => Raise e end.

(** ** The [%] operator on a template and a mapping *)

Module PyFormat.
Import PyStr.

(** The values the script puts into a mapping. *)
Inductive pyval : Type :=
| VStr (s : string)
| VList (l : list string).

(** [str(v)] *)
Definition str (v : pyval) : string :=
  match v with
  | VStr s => s
  | VList l => str_of_list l
  end.

(** A [dict] literal with text keys: later entries win, as in Python. *)
Fixpoint dict_get (d : list (string * pyval)) (key : string) : option pyval :=
  match d with
  | [] => None
  | (k, v) :: d' =>
      match dict_get d' key with
      | Some v' => Some v'
      | None => if String.eqb k key then Some v else None
      end
  end.

(** Where the scan of the template stands. *)
Inductive mode : Type :=
| Lit                                   (* copying literal text *)
| Pct                                   (* just after a percent sign *)
| Key (depth : nat) (acc : string)      (* inside the parentheses of a key *)
| Conv (v : pyval).                     (* key looked up, conversion expected *)

(** [template % d] for the conversions the script's template uses:
    [%(key)s] and the doubled percent sign.  The key is looked up when
    its closing parenthesis is read, so a missing key raises [KeyError]
    at that point; any other conversion is reported as [ValueError]. *)
Fixpoint format_go (d : list (string * pyval)) (m : mode) (t : string)
  : result string :=
  match t with
  | EmptyString =>
      match m with
      | Lit => Ok EmptyString
      | Key _ _ => Raise (ValueError "incomplete format key")
      | _ => Raise (ValueError "incomplete format")
      end
  | String c t' =>
      match m with
      | Lit =>
          if Ascii.eqb c "%" then format_go d Pct t'
          else result_map (String c) (format_go d Lit t')
      | Pct =>
          if Ascii.eqb c "(" then format_go d (Key 0 EmptyString) t'
          else if Ascii.eqb c "%" then result_map (String c) (format_go d Lit t')
          else Raise (ValueError "unsupported format character")
      | Key depth acc =>
          if Ascii.eqb c ")" then
            match depth with
            | O =>
                match dict_get d acc with
                | Some v => format_go d (Conv v) t'
                | None => Raise (KeyError acc)
                end
            | S k => format_go d (Key k (acc +:+ String c EmptyString)) t'
            end
          else if Ascii.eqb c "(" then
            format_go d (Key (S depth) (acc +:+ String c EmptyString)) t'
          else format_go d (Key depth (acc +:+ String c EmptyString)) t'
      | Conv v =>
          if Ascii.eqb c "s"
          then result_map (String.append (str v)) (format_go d Lit t')
          else Raise (ValueError "unsupported format character")
      end
  end.

Definition format (template : string) (d : list (string * pyval)) : result string :=
  format_go d Lit template.

End PyFormat.

(** ** Values of a [ConfigParser] section *)

Module PyConfig.
Import PyStr.

Definition MAX_INTERPOLATION_DEPTH : nat := 10.

(** Where the scan of a value stands. *)
Inductive mode : Type :=
| Lit                     (* copying literal text *)
| Pct                     (* just after a percent sign *)
| Name (acc : string)     (* inside the parentheses of a reference *)
| Closed (name : string). (* parentheses closed, the letter s expected *)

Definition bad_percent : string := "'%' must be followed by '%' or '('".
Definition bad_reference : string := "bad interpolation variable reference".

(** One pass over a value, as [BasicInterpolation] makes it: a doubled
    percent sign gives one, [%(name)s] gives the value of the option
    [name] (lower-cased, as option names are) of the same section, and
    a percent sign followed by anything else is an error.  A referenced
    value that itself holds a percent sign is interpolated one level
    down by [deeper]; [section] has the options of the section over the
    defaults, with their values as written. *)
Fixpoint scan (option : string) (section : gmap string string)
              (deeper : string -> result string) (m : mode) (rest : string)
  : result string :=
  match rest with
  | EmptyString =>
      match m with
      | Lit => Ok EmptyString
      | Pct => Raise (InterpolationSyntaxError option bad_percent)
      | Name _ | Closed _ => Raise (InterpolationSyntaxError option bad_reference)
      end
  | String c rest' =>
      match m with
      | Lit =>
          if Ascii.eqb c "%" then scan option section deeper Pct rest'
          else result_map (String c) (scan option section deeper Lit rest')
      | Pct =>
          if Ascii.eqb c "%"
          then result_map (String c) (scan option section deeper Lit rest')
          else if Ascii.eqb c "(" then scan option section deeper (Name EmptyString) rest'
          else Raise (InterpolationSyntaxError option bad_percent)
      | Name acc =>
          if Ascii.eqb c ")" then
            match acc with
            | EmptyString => Raise (InterpolationSyntaxError option bad_reference)
            | _ => scan option section deeper (Closed acc) rest'
            end
          else scan option section deeper (Name (acc +:+ String c EmptyString)) rest'
      | Closed name =>
          if Ascii.eqb c "s" then
            match section !! lower name with
            | None => Raise (InterpolationMissingOptionError option (lower name))
            | Some v =>
                match (if contains_char "%" v then deeper v else Ok v) with
                | Ok text =>
                    result_map (String.append text)
                               (scan option section deeper Lit rest')
                | Raise e => Raise e
                end
            end
          else Raise (InterpolationSyntaxError option bad_reference)
      end
  end.

(** Interpolation with [levels] levels of references left; with none
    left it is [InterpolationDepthError]. *)
Fixpoint interpolate (levels : nat) (option : string)
                     (section : gmap string string) (value : string)
  : result string :=
  match levels with
  | O => Raise (InterpolationDepthError option)
  | S levels' =>
      scan option section (interpolate levels' option section) Lit value
  end.

(** What [section[option]] gives for the stored text [value]. *)
Definition before_get (section : gmap string string) (option value : string)
  : result string :=
  interpolate MAX_INTERPOLATION_DEPTH option section value.

End PyConfig.

(** ** Comparison of tuples *)

Module PyTuple.

Inductive elem : Type :=
| PyInt (n : Z)
| PyText (s : string).

Definition elem_eqb (a b : elem) : bool :=
  match a, b with
  | PyInt x, PyInt y => (x =? y)%Z
  | PyText x, PyText y => String.eqb x y
  | _, _ => false
  end.

(** [a < b]; an [int] and a [str] are not ordered. *)
Definition elem_lt (a b : elem) : result bool :=
  match a, b with
  | PyInt x, PyInt y => Ok (x <? y)%Z
  | PyText x, PyText y => Ok (String.ltb x y)
  | _, _ => Raise (TypeError "'<' not supported between instances")
  end.

(** [v < w] on tuples: the first position where the items differ
    decides; when one tuple is a prefix of the other the shorter one is
    the smaller. *)
Fixpoint tuple_lt (v w : list elem) : result bool :=
  match v, w with
  | [], [] => Ok false
  | [], _ :: _ => Ok true
  | _ :: _, [] => Ok false
  | a :: v', b :: w' => if elem_eqb a b then tuple_lt v' w' else elem_lt a b
  end.

End PyTuple.

(** ** The machine: files, output streams and calls to collaborators *)

(** [Extension(name, sources=..., include_dirs=...)]; the attribute
    [extra_compile_args] starts as the empty list. *)
Record Extension : Type := mkExtension {
  ext_name : string;
  sources : list string;
  include_dirs : list string;
  extra_compile_args : list string
}.

(** The command classes the script registers. *)
Inductive cmdclass_entry : Type :=
| build_extension_class_entry.

(** The keyword arguments handed to [setup]. *)
Record Metadata : Type := mkMetadata {
  md_name : string;
  md_version : string;
  md_author : string;
  md_author_email : string;
  md_maintainer : string;
  md_description : string;
  md_long_description : string;
  md_long_description_content_type : string;
  md_url : string;
  md_download_url : string;
  md_project_urls : list (string * string);
  md_packages : list string;
  md_ext_modules : list Extension;
  md_license : string;
  md_platforms : list string;
  md_install_requires : list string;
  md_extras_require : list (string * string);
  md_python_requires : string;
  md_cmdclass : list (string * cmdclass_entry);
  md_include_package_data : bool;
  md_zip_safe : bool;
  md_keywords : list string;
  md_classifiers : list string
}.

(** What the script does that can be seen from outside, besides the
    files it leaves behind. *)
Inductive event : Type :=
| StderrWrite (text : string)
| StdoutWrite (text : string)
| ExtensionBuilt (e : Extension)
| SubprocessCall (argv : list string) (cwd : string)
| SetupCall (metadata : Metadata).

Record State : Type := mkState {
  fs : gmap string string;        (* path -> content *)
  trace : list event              (* oldest first *)
}.

(** [sys.version_info] *)
Record version_info_t : Type := mkVersionInfo {
  major : Z;
  minor : Z;
  micro : Z;
  releaselevel : string;
  serial : Z
}.

(** What a finished child process reports. *)
Record CompletedProcess : Type := mkCompletedProcess {
  returncode : Z;
  child_stdout : string;
  child_stderr : string
}.

(** What the script is given and does not decide: the interpreter, the
    configuration as [ConfigParser] holds it after reading [setup.cfg]
    (per section, the options of the section over the defaults, their
    names in lower case, with their values as written, before any
    interpolation), the packages [find_packages] reports, numpy's
    include directory, the way the cythonize child process ends and
    what [setup] does. *)
Record World : Type := mkWorld {
  sys_version_info : version_info_t;
  python_version : string;
  sys_executable : string;
  script_dir : string;
  config : gmap string (gmap string string);
  found_packages : list string;
  numpy_include : string;
  cythonize : CompletedProcess;
  setup_raises : option exn
}.

(** A statement: from a state to a value or an exception, and the state
    it leaves. *)
Definition M (A : Type) : Type := State -> result A * State.

Definition ret {A} (a : A) : M A := fun s => (Ok a, s).

Definition raise {A} (e : exn) : M A := fun s => (Raise e, s).

Definition bind {A B} (c : M A) (k : A -> M B) : M B :=
  fun s =>
    match c s with
    | (Ok a, s') => k a s'
    | (Raise e, s') => (Raise e, s')
    end.

Notation "x <- c ;; k" := (bind c (fun x => k))
  (at level 100, c at next level, right associativity).
Notation "c ;;; k" := (bind c (fun _ => k))
  (at level 100, right associativity).

(** [try: body finally: cleanup] *)
Definition try_finally {A} (body : M A) (cleanup : M unit) : M A :=
  fun s =>
    match body s with
    | (r, s') =>
        match cleanup s' with
        | (Ok _, s'') => (r, s'')
        | (Raise e, s'') => (Raise e, s'')
        end
    end.

Definition lift {A} (r : result A) : M A := fun s => (r, s).

Definition log (e : event) : M unit :=
  fun s => (Ok tt, mkState (fs s) (trace s ++ [e])%list).

(** [print(text)] *)
Definition print (text : string) : M unit :=
  log (StdoutWrite (text +:+ String PyStr.nl EmptyString)).

(** [sys.stderr.write(text)] *)
Definition stderr_write (text : string) : M unit := log (StderrWrite text).

(** [open(path, 'r')]: the stored text of the file, or
    [FileNotFoundError].  The handle is that text. *)
Definition open_r (path : string) : M string :=
  fun s =>
    match fs s !! path with
    | Some content => (Ok content, s)
    | None => (Raise (FileNotFoundError path), s)
    end.

(** [io.open(path).read()] *)
Definition read_text (path : string) : M string :=
  bind (open_r path) (fun content => ret (PyStr.universal_newlines content)).

(** [open(path, 'w')]: the file is created or cut to length zero.  The
    handle is the path.  The directory of the path is taken to exist and
    to be writable, as [caer/] is in the source tree. *)
Definition open_w (path : string) : M string :=
  fun s => (Ok path, mkState (<[path := EmptyString]> (fs s)) (trace s)).

(** [a.write(text)] on a handle opened for writing *)
Definition file_write (a : string) (text : string) : M unit :=
  fun s =>
    let old := default EmptyString (fs s !! a) in
    (Ok tt, mkState (<[a := old +:+ text]> (fs s)) (trace s)).

(** [a.close()] *)
Definition file_close (a : string) : M unit := ret tt.

(** [posixpath.join] *)
Fixpoint path_join (path : string) (parts : list string) : string :=
  match parts with
  | [] => path
  | b :: rest =>
      if PyStr.startswith "/" b then path_join b rest
      else
        match PyStr.last_char path with
        | None => path_join (path +:+ b) rest
        | Some c =>
            if Ascii.eqb c "/" then path_join (path +:+ b) rest
            else path_join (path +:+ "/" +:+ b) rest
        end
  end.

(** ** The script *)

Module Setup.
Import PyStr PyFormat PyConfig PyTuple.

Definition MAJOR : Z := 1.
Definition MINOR : Z := 3.
Definition MICRO : Z := 3.
Definition ISRELEASED : bool := true.
Definition VERSION : string :=
  str_of_int MAJOR +:+ "." +:+ str_of_int MINOR +:+ "." +:+ str_of_int MICRO.

Definition RUN_CYTHON_BUILD : bool := true.

Definition min_version : list Z := [3; 6; 1]%Z.

(** [sys.version_info] as the five-item tuple it compares as. *)
Definition version_tuple (v : version_info_t) : list elem :=
  [PyInt (major v); PyInt (minor v); PyInt (micro v);
   PyText (releaselevel v); PyInt (serial v)].

Definition is_right_py_version (w : World) (min_py_version : list Z) : M bool :=
  py2 <- lift (tuple_lt (version_tuple (sys_version_info w)) [PyInt 3]) ;;
  if py2 : bool then
    stderr_write
      "Python 2 has reached end-of-life and is no longer supported by Caer." ;;;
    ret false
  else
    old <- lift (tuple_lt (version_tuple (sys_version_info w))
                          (map PyInt min_py_version)) ;;
    if old : bool then
      let python_min_version_str := join "." (map str_of_int min_py_version) in
      let no_go :=
        "You are using Python " +:+ python_version w +:+ "."
        +:+ " Python >=" +:+ python_min_version_str +:+ " is  required." in
      stderr_write no_go ;;;
      ret false
    else ret true.

(** [if not is_right_py_version(min_version): sys.exit(-1)] *)
Definition version_gate (w : World) : M unit :=
  ok <- is_right_py_version w min_version ;;
  if negb ok then raise (SystemExit (-1)) else ret tt.

(** *** Configuration *)

(** [config[name]] *)
Definition config_section (w : World) (name : string) : M (gmap string string) :=
  match config w !! name with
  | Some section => ret section
  | None => raise (KeyError name)
  end.

(** [key in section] *)
Definition has_option (section : gmap string string) (key : string) : bool :=
  bool_decide (is_Some (section !! key)).

(** [section[key]]: [KeyError] for an option that is not there, and
    the interpolated value, or the error of the interpolation, for one
    that is. *)
Definition getitem (section : gmap string string) (key : string) : M string :=
  match section !! key with
  | Some value => lift (before_get section key value)
  | None => raise (KeyError key)
  end.

Definition cfg_keys : list string :=
  split_ws "description keywords author author_email contributors".

Definition expected : list string :=
  (cfg_keys ++
   split_ws "name user git_branch license status audience language dev_language")%list.

(** [for i in expected: assert i in cfg, f'Missing expected setting: {i}'] *)
Fixpoint check_expected (cfg : gmap string string) (keys : list string) : M unit :=
  match keys with
  | [] => ret tt
  | i :: rest =>
      if has_option cfg i then check_expected cfg rest
      else raise (AssertionError ("Missing expected setting: " +:+ i))
  end.

Definition EXTRAS : list (string * string) := [("canaro", "canaro>=1.0.6")].

(** The [EXTENSIONS] table, in the order it is written. *)
Definition EXTENSIONS : list (string * list string) :=
  [ ("caer.cconvex", ["caer/cconvex.cpp"]);
    ("caer.cconvolve", ["caer/cconvolve.cpp"; "caer/cfilters.cpp"]);
    ("caer.cdistance", ["caer/cdistance.cpp"]);
    ("caer.cmorph", ["caer/cmorph.cpp"; "caer/cfilters.cpp"]);
    ("caer.ndi.cndi",
      [ "caer/ndi/cndimage.c";
        "caer/ndi/cndfilters.c";
        "caer/ndi/cndfourier.c";
        "caer/ndi/cndinterpolation.c";
        "caer/ndi/cndmeasure.c";
        "caer/ndi/cndmorphology.c";
        "caer/ndi/cndsplines.c";
        "caer/ndi/cndsupport.c" ]) ].

(** The [Extension] constructor. *)
Definition new_Extension (name : string) (srcs incl : list string) : M Extension :=
  let e := mkExtension name srcs incl [] in
  log (ExtensionBuilt e) ;;;
  ret e.

(** [[Extension(key, sources=sources, include_dirs=[np.get_include()])
      for key, sources in EXTENSIONS.items()]] *)
Fixpoint build_ext_modules (w : World) (table : list (string * list string))
  : M (list Extension) :=
  match table with
  | [] => ret []
  | (key, srcs) :: rest =>
      e <- new_Extension key srcs [numpy_include w] ;;
      es <- build_ext_modules w rest ;;
      ret (e :: es)
  end.

(** The names the module body binds from the configuration. *)
Record Settings : Type := mkSettings {
  NAME : string;
  AUTHOR : string;
  AUTHOR_EMAIL : string;
  AUTHOR_LONG : string;
  LICENSE : string;
  PLATFORMS : list string;
  URL : string;
  DOWNLOAD_URL : string;
  PACKAGES : list string;
  DESCRIPTION : string;
  LONG_DESCRIPTION : string;
  KEYWORDS : list string;
  REQUIREMENTS : list string;
  CLASSIFIERS : list string;
  PYTHON_REQUIRES : string
}.

(** [cfg['classifiers'].split('\n')][1:] *)
Definition classifiers_of (value : string) : list string :=
  drop 1 (split (String nl EmptyString) value).

(** The module body from the reading of [setup.cfg] to
    [PYTHON_REQUIRES]. *)
Definition load_metadata (w : World) : M Settings :=
  cfg <- config_section w "metadata" ;;
  opt <- config_section w "options" ;;
  check_expected cfg expected ;;;
  name <- getitem cfg "name" ;;
  author <- getitem cfg "author" ;;
  author_email <- getitem cfg "author_email" ;;
  let author_long := author +:+ " <" +:+ author_email +:+ ">" in
  license <- getitem cfg "license" ;;
  let platforms := ["Any"] in
  url <- getitem cfg "git_url" ;;
  download_url <- getitem cfg "download_url" ;;
  let packages := found_packages w in
  description <- getitem cfg "description" ;;
  long_description <- read_text "LONG_DESCRIPTION.md" ;;
  keywords <- getitem cfg "keywords" ;;
  requirements <- getitem opt "pip_requirements" ;;
  classifiers <- getitem cfg "classifiers" ;;
  min_python <- getitem opt "min_python" ;;
  ret (mkSettings name author author_email author_long license platforms
         url download_url packages description long_description
         (split ", " keywords) (split ", " requirements)
         (classifiers_of classifiers) (">=" +:+ min_python)).

(** *** The generated meta module *)

Definition META_PY_TEXT : string :=
  join (String nl EmptyString)
    [ "";
      "# This file is automatically generated during the generation of setup.py";
      "# Copyright 2020, Caer";
      "author = '%(author)s'";
      "version = '%(version)s'";
      "full_version = '%(full_version)s'";
      "release = %(isrelease)s";
      "contributors = %(contributors)s";
      "" ].

Definition get_contributors_list (filename : string) : M (list string) :=
  content <- open_r filename ;;
  ret (fold_left (fun contr line => (contr ++ [strip line])%list)
                 (file_lines content) []).

Definition write_meta (g : Settings) (filename : string) : M unit :=
  print "[INFO] Writing _meta.py" ;;;
  let TEXT := META_PY_TEXT in
  let FULL_VERSION := VERSION in
  CONTRIBUTORS <- get_contributors_list "CONTRIBUTORS" ;;
  a <- open_w filename ;;
  try_finally
    (text <- lift (format TEXT
                     [ ("author", VStr (AUTHOR_LONG g));
                       ("version", VStr VERSION);
                       ("full_version", VStr FULL_VERSION);
                       ("isrelease", VStr (str_of_bool ISRELEASED));
                       ("contributors", VList CONTRIBUTORS) ]) ;;
     file_write a text)
    (file_close a).

Definition get_docs_url (g : Settings) : string :=
  URL g +:+ "/blob/master/docs/README.md".

(** *** Source generation *)

(** [subprocess.call(argv, cwd=cwd)]: runs the child to its end and
    returns its exit status.  The files the child writes are its own
    business and are not entered in the file store. *)
Definition subprocess_call (w : World) (argv : list string) (cwd : string) : M Z :=
  log (SubprocessCall argv cwd) ;;;
  ret (returncode (cythonize w)).

Definition generate_cython (w : World) : M unit :=
  let cwd := script_dir w in
  print "[INFO] Cythonizing sources" ;;;
  p <- subprocess_call w
         [sys_executable w; path_join cwd ["tools"; "cythonize.py"]] cwd ;;
  if negb (p =? 0)%Z
  then raise (RuntimeError "[ERROR] Running cythonize failed!")
  else ret tt.

(** *** The compiler hook *)

Definition copt : gmap string (list string) :=
  <["msvc" := ["/EHsc"]]> (<["intelw" := ["/EHsc"]]> ∅).

(** The part of a [build_ext] command the hook reads and writes. *)
Record build_ext : Type := mkBuildExt {
  compiler_type : string;
  extensions : list Extension
}.

Definition set_extra_compile_args (args : list string) (e : Extension) : Extension :=
  mkExtension (ext_name e) (sources e) (include_dirs e) args.

(** The statements of [build_extensions] before the call to the base
    class: [if c in copt: for e in self.extensions: ...]. *)
Definition apply_copt (self : build_ext) : build_ext :=
  let c := compiler_type self in
  match copt !! c with
  | Some args =>
      mkBuildExt (compiler_type self)
                 (map (set_extra_compile_args args) (extensions self))
  | None => self
  end.

Section BuildExtensionClass.
(** [build_ext.build_extensions], the method of the base class. *)
Variable base_build_extensions : build_ext -> M unit.

Definition build_extensions (self : build_ext) : M build_ext :=
  let self' := apply_copt self in
  base_build_extensions self' ;;;
  ret self'.
End BuildExtensionClass.

Definition CMDCLASS : list (string * cmdclass_entry) :=
  [("build_ext", build_extension_class_entry)].

(** *** The pipeline *)

(** [setup], the packaging backend, called with [metadata] as its
    keyword arguments. *)
Definition setup (w : World) (metadata : Metadata) : M unit :=
  log (SetupCall metadata) ;;;
  match setup_raises w with
  | Some e => raise e
  | None => ret tt
  end.

Definition setup_package (w : World) (g : Settings)
                         (EXT_MODULES : list Extension) : M unit :=
  write_meta g "caer/_meta.py" ;;;
  let metadata :=
    {| md_name := NAME g;
       md_version := VERSION;
       md_author := AUTHOR g;
       md_author_email := AUTHOR_EMAIL g;
       md_maintainer := AUTHOR g;
       md_description := DESCRIPTION g;
       md_long_description := LONG_DESCRIPTION g;
       md_long_description_content_type := "text/markdown";
       md_url := URL g;
       md_download_url := DOWNLOAD_URL g;
       md_project_urls :=
         [ ("Bug Tracker", URL g +:+ "/issues");
           ("Documentation", get_docs_url g);
           ("Source Code", URL g) ];
       md_packages := PACKAGES g;
       md_ext_modules := EXT_MODULES;
       md_license := LICENSE g;
       md_platforms := PLATFORMS g;
       md_install_requires := REQUIREMENTS g;
       md_extras_require := EXTRAS;
       md_python_requires := PYTHON_REQUIRES g;
       md_cmdclass := CMDCLASS;
       md_include_package_data := true;
       md_zip_safe := false;
       md_keywords := KEYWORDS g;
       md_classifiers := CLASSIFIERS g |} in
  let run_build := RUN_CYTHON_BUILD in
  (if run_build then generate_cython w else ret tt) ;;;
  setup w metadata.

(** The interpreter compiles the whole file before it runs its first
    statement.  The file has f-strings (lines 54, 67 and 94), which
    interpreters older than 3.6 reject. *)
Definition compiles (v : version_info_t) : bool :=
  (3 <? major v)%Z || ((major v =? 3)%Z && (6 <=? minor v)%Z).

(** The statements of the module, top to bottom. *)
Definition module_body (w : World) : M unit :=
  version_gate w ;;;
  g <- load_metadata w ;;
  EXT_MODULES <- build_ext_modules w EXTENSIONS ;;
  setup_package w g EXT_MODULES.

(** The file run as a script: compiled, then executed.  Where it does
    not compile the interpreter reports the syntax error and no
    statement runs. *)
Definition main (w : World) : M unit :=
  if compiles (sys_version_info w) then module_body w
  else raise (SyntaxError "invalid syntax").

(** A run of the script on the files [files]. *)
Definition run (w : World) (files : gmap string string) : result unit * State :=
  main w (mkState files []).

End Setup.

(** ** Vocabulary of the properties

    Names for the states, events and texts the properties speak of. *)

Module Spec.
Import PyStr PyFormat PyConfig PyTuple Setup.

(** A line as file iteration yields it: text without a newline,
    closed by one newline, or (at the end of the file) not closed. *)
Definition line_shape (l : string) : Prop :=
  exists body,
    contains_char nl body = false
    /\ (l = body +:+ String nl EmptyString \/ (l = body /\ l <> EmptyString)).

Definition nlsep : string := String nl EmptyString.

Definition logged (s : State) (events : list event) : State :=
  mkState (fs s) (trace s ++ events)%list.

(** The interpreter is older than 3.6.1. *)
Definition below_minimum (v : version_info_t) : Prop :=
  (major v < 3
   \/ (major v = 3 /\ minor v < 6)
   \/ (major v = 3 /\ minor v = 6 /\ micro v < 1))%Z.

(** What the gate writes to the error stream when it rejects. *)
Definition gate_message (w : World) : string :=
  if (major (sys_version_info w) <? 3)%Z
  then "Python 2 has reached end-of-life and is no longer supported by Caer."
  else "You are using Python " +:+ python_version w +:+ "."
       +:+ " Python >=3.6.1 is  required.".

(** The descriptors the module body builds from a table. *)
Definition descriptors (w : World) (table : list (string * list string))
  : list Extension :=
  map (fun entry => mkExtension (fst entry) (snd entry) [numpy_include w] []) table.

(** The template with its five fields filled in. *)
Definition meta_module_text
  (author version full_version isrelease contributors : string) : string :=
  nlsep
  +:+ "# This file is automatically generated during the generation of setup.py"
  +:+ nlsep
  +:+ "# Copyright 2020, Caer" +:+ nlsep
  +:+ "author = '" +:+ author +:+ "'" +:+ nlsep
  +:+ "version = '" +:+ version +:+ "'" +:+ nlsep
  +:+ "full_version = '" +:+ full_version +:+ "'" +:+ nlsep
  +:+ "release = " +:+ isrelease +:+ nlsep
  +:+ "contributors = " +:+ contributors +:+ nlsep.

(** The text [write_meta] leaves in the file. *)
Definition written_meta (g : Settings) (contributors : list string) : string :=
  meta_module_text (AUTHOR_LONG g) VERSION VERSION (str_of_bool ISRELEASED)
    (str_of_list contributors).

Definition writing_notice : event :=
  StdoutWrite ("[INFO] Writing _meta.py" +:+ nlsep).

Definition cythonize_argv (w : World) : list string :=
  [sys_executable w; path_join (script_dir w) ["tools"; "cythonize.py"]].

Definition generation_events (w : World) : list event :=
  [ StdoutWrite ("[INFO] Cythonizing sources" +:+ nlsep);
    SubprocessCall (cythonize_argv w) (script_dir w) ].

Definition generation_error : exn :=
  RuntimeError "[ERROR] Running cythonize failed!".

(** A statement that leaves the state as it found it. *)
Definition pure {A} (c : M A) : Prop := forall s, snd (c s) = s.

Definition missing_setting (key : string) : exn :=
  AssertionError ("Missing expected setting: " +:+ key).

(** The first of [keys], in their order, that [cfg] lacks. *)
Definition first_missing (cfg : gmap string string) (keys : list string)
  : option string :=
  List.find (fun key => negb (has_option cfg key)) keys.

(** The keyword arguments [setup_package] builds. *)
Definition metadata_of (g : Settings) (ext_modules : list Extension) : Metadata :=
  {| md_name := NAME g;
     md_version := VERSION;
     md_author := AUTHOR g;
     md_author_email := AUTHOR_EMAIL g;
     md_maintainer := AUTHOR g;
     md_description := DESCRIPTION g;
     md_long_description := LONG_DESCRIPTION g;
     md_long_description_content_type := "text/markdown";
     md_url := URL g;
     md_download_url := DOWNLOAD_URL g;
     md_project_urls :=
       [ ("Bug Tracker", URL g +:+ "/issues");
         ("Documentation", get_docs_url g);
         ("Source Code", URL g) ];
     md_packages := PACKAGES g;
     md_ext_modules := ext_modules;
     md_license := LICENSE g;
     md_platforms := PLATFORMS g;
     md_install_requires := REQUIREMENTS g;
     md_extras_require := EXTRAS;
     md_python_requires := PYTHON_REQUIRES g;
     md_cmdclass := CMDCLASS;
     md_include_package_data := true;
     md_zip_safe := false;
     md_keywords := KEYWORDS g;
     md_classifiers := CLASSIFIERS g |}.

(** The state once the meta module is written. *)
Definition meta_written (g : Settings) (content : string) (s : State) : State :=
  mkState (<["caer/_meta.py" := written_meta g (map strip (file_lines content))]> (fs s))
          (trace s ++ [writing_notice]).

(** The [Extension] objects of the module body, as events. *)
Definition built_events (w : World) : list event :=
  map ExtensionBuilt (descriptors w EXTENSIONS).

(** The interpreter is older than 3.6, the first version with
    f-strings. *)
Definition before_fstrings (v : version_info_t) : Prop :=
  (major v < 3 \/ (major v = 3 /\ minor v < 6))%Z.

(** How a run can end. *)
Inductive ending (w : World) (s : State) : result unit -> State -> Prop :=
| end_syntax :
    before_fstrings (sys_version_info w) ->
    ending w s (Raise (SyntaxError "invalid syntax")) s
| end_gate :
    ~ before_fstrings (sys_version_info w) ->
    below_minimum (sys_version_info w) ->
    ending w s (Raise (SystemExit (-1))) (logged s [StderrWrite (gate_message w)])
| end_load (e : exn) :
    ~ below_minimum (sys_version_info w) ->
    fst (load_metadata w s) = Raise e ->
    ending w s (Raise e) s
| end_contributors (g : Settings) :
    ~ below_minimum (sys_version_info w) ->
    fst (load_metadata w s) = Ok g ->
    fs s !! "CONTRIBUTORS" = None ->
    ending w s (Raise (FileNotFoundError "CONTRIBUTORS"))
           (logged (logged s (built_events w)) [writing_notice])
| end_generation (g : Settings) (content : string) :
    ~ below_minimum (sys_version_info w) ->
    fst (load_metadata w s) = Ok g ->
    fs s !! "CONTRIBUTORS" = Some content ->
    returncode (cythonize w) <> 0%Z ->
    ending w s (Raise generation_error)
           (logged (meta_written g content (logged s (built_events w)))
                   (generation_events w))
| end_delegated (g : Settings) (content : string) :
    ~ below_minimum (sys_version_info w) ->
    fst (load_metadata w s) = Ok g ->
    fs s !! "CONTRIBUTORS" = Some content ->
    returncode (cythonize w) = 0%Z ->
    ending w s (match setup_raises w with Some e => Raise e | None => Ok tt end)
           (logged (logged (meta_written g content (logged s (built_events w)))
                           (generation_events w))
                   [SetupCall (metadata_of g (descriptors w EXTENSIONS))]).

(** The same world with other output of the child process. *)
Definition with_child_output (w : World) (out err : string) : World :=
  {| sys_version_info := sys_version_info w;
     python_version := python_version w;
     sys_executable := sys_executable w;
     script_dir := script_dir w;
     config := config w;
     found_packages := found_packages w;
     numpy_include := numpy_include w;
     cythonize := mkCompletedProcess (returncode (cythonize w)) out err;
     setup_raises := setup_raises w |}.

Definition is_built (e : event) : bool :=
  match e with ExtensionBuilt _ => true | _ => false end.

(** How many [Extension] objects a trace has seen built. *)
Definition count_built (t : list event) : nat := length (List.filter is_built t).

Definition is_generation (e : event) : bool :=
  match e with SubprocessCall _ _ => true | _ => false end.

Definition is_delegation (e : event) : bool :=
  match e with SetupCall _ => true | _ => false end.

(** The interpreter is older than version [a.b.c]. *)
Definition version_lt (v : version_info_t) (a b c : Z) : Prop :=
  (major v < a
   \/ (major v = a /\ minor v < b)
   \/ (major v = a /\ minor v = b /\ micro v < c))%Z.

(** The message for an interpreter older than the minimum [m]. *)
Definition too_old_message (w : World) (m : list Z) : string :=
  "You are using Python " +:+ python_version w +:+ "."
  +:+ " Python >=" +:+ join "." (map str_of_int m) +:+ " is  required.".

Definition python2_message : string :=
  "Python 2 has reached end-of-life and is no longer supported by Caer.".

(** [section[key]] evaluates to [value]. *)
Definition reads (section : gmap string string) (key value : string) : Prop :=
  exists raw, section !! key = Some raw /\ before_get section key raw = Ok value.

(** [section[key]] evaluates to some text. *)
Definition readable (section : gmap string string) (key : string) : Prop :=
  exists value, reads section key value.

End Spec.

(** Worlds and file stores used as concrete instances. *)
Module Examples.
Import PyStr PyFormat PyConfig PyTuple Setup Spec.

Definition metadata_section : gmap string string :=
  list_to_map
    [ ("description", "Computer Vision on the Fly"); ("keywords", "vision, images");
      ("author", "Ada"); ("author_email", "ada@example.org");
      ("contributors", "CONTRIBUTORS"); ("name", "caer"); ("user", "ada");
      ("git_branch", "master"); ("license", "MIT"); ("status", "4");
      ("audience", "Developers"); ("language", "English");
      ("dev_language", "Python"); ("git_url", "https://example.org/caer");
      ("download_url", "https://example.org/caer/dl");
      ("classifiers", String nl "Topic :: Software") ].

Definition options_section : gmap string string :=
  list_to_map [ ("pip_requirements", "numpy, opencv"); ("min_python", "3.6.1") ].

Definition full_config : gmap string (gmap string string) :=
  <["metadata" := metadata_section]> (<["options" := options_section]> ∅).

Definition world_with (v : version_info_t) (cfg : gmap string (gmap string string))
                      (exit_status : Z) : World :=
  {| sys_version_info := v;
     python_version :=
       str_of_int (major v) +:+ "." +:+ str_of_int (minor v) +:+ "."
       +:+ str_of_int (micro v);
     sys_executable := "/usr/bin/python3";
     script_dir := "/src/caer";
     config := cfg;
     found_packages := ["caer"];
     numpy_include := "/usr/include/numpy";
     cythonize := mkCompletedProcess exit_status "" "";
     setup_raises := None |}.

Definition py38 : version_info_t := mkVersionInfo 3 8 2 "final" 0.
Definition py360 : version_info_t := mkVersionInfo 3 6 0 "final" 0.
Definition py35 : version_info_t := mkVersionInfo 3 5 9 "final" 0.

(** A configuration whose classifiers value repeats its first line. *)
Definition repeated_config : gmap string (gmap string string) :=
  <["metadata" := <["classifiers" := "A" +:+ nlsep +:+ "A"]> metadata_section]>
    full_config.

(** The thirteen checked settings and nothing else. *)
Definition thirteen_section : gmap string string :=
  list_to_map (map (fun key => (key, "x")) expected).

Definition thirteen_config : gmap string (gmap string string) :=
  <["metadata" := thirteen_section]> full_config.

(** No [options] section, and [name] is not set. *)
Definition no_options_config : gmap string (gmap string string) :=
  <["metadata" := delete "name" metadata_section]> ∅.

(** The full configuration with a percent sign in the description. *)
Definition percent_section : gmap string string :=
  <["description" := "100% fun"]> metadata_section.

Definition percent_config : gmap string (gmap string string) :=
  <["metadata" := percent_section]> full_config.

(** The full configuration without its [license]. *)
Definition unlicensed_config : gmap string (gmap string string) :=
  <["metadata" := delete "license" metadata_section]> full_config.

Definition good_world : World := world_with py38 full_config 0.
Definition unlicensed_world : World := world_with py38 unlicensed_config 0.
Definition percent_world : World := world_with py38 percent_config 0.
Definition repeated_world : World := world_with py38 repeated_config 0.
Definition thirteen_world : World := world_with py38 thirteen_config 0.
Definition no_options_world : World := world_with py38 no_options_config 0.
Definition failing_world : World := world_with py38 full_config 1.
Definition old_world : World := world_with py360 full_config 0.
Definition py35_world : World := world_with py35 full_config 0.

(** What the module body binds in [good_world]. *)
Definition good_settings : Settings :=
  {| NAME := "caer";
     AUTHOR := "Ada";
     AUTHOR_EMAIL := "ada@example.org";
     AUTHOR_LONG := "Ada <ada@example.org>";
     LICENSE := "MIT";
     PLATFORMS := ["Any"];
     URL := "https://example.org/caer";
     DOWNLOAD_URL := "https://example.org/caer/dl";
     PACKAGES := ["caer"];
     DESCRIPTION := "Computer Vision on the Fly";
     LONG_DESCRIPTION := "Caer";
     KEYWORDS := ["vision"; "images"];
     REQUIREMENTS := ["numpy"; "opencv"];
     CLASSIFIERS := ["Topic :: Software"];
     PYTHON_REQUIRES := ">=3.6.1" |}.

Definition alice_bob : string :=
  "Alice" +:+ nlsep +:+ "  " +:+ nlsep +:+ "Bob" +:+ nlsep.

(** Three names, the first closed by a CR on its own, the second by
    CR LF, the third not closed. *)
Definition alice_bob_carol : string :=
  "Alice" +:+ String cr EmptyString +:+ "Bob" +:+ String cr nlsep +:+ "Carol".

Definition files : gmap string string :=
  <["CONTRIBUTORS" := alice_bob]>
    (<["LONG_DESCRIPTION.md" := "Caer"]>
       (<["caer/_meta.py" := "stale"]> ∅)).

Definition start : State := mkState files [].

End Examples.

(** * Properties *)

(** ** Facts about the text primitives *)

Module PyStrFacts.
Import PyStr Spec.

Lemma append_nil_r (s : string) : s +:+ EmptyString = s.
Proof. induction s as [|c s IH]; simpl; [reflexivity | now rewrite IH]. Qed.

Lemma append_assoc (a b c : string) : (a +:+ b) +:+ c = a +:+ (b +:+ c).
Proof. induction a as [|x a IH]; simpl; [reflexivity | now rewrite IH]. Qed.

Lemma append_snoc (a : string) (c : ascii) (b : string) :
  (a +:+ String c EmptyString) +:+ b = a +:+ String c b.
Proof. now rewrite append_assoc. Qed.

Lemma all_space_app (a b : string) :
  all_space (a +:+ b) = all_space a && all_space b.
Proof.
  induction a as [|c a IH]; simpl; [reflexivity |].
  rewrite IH. now rewrite andb_assoc.
Qed.

(** *** [strip] *)

Lemma lstrip_decomp (s : string) :
  exists pre, s = pre +:+ lstrip s /\ all_space pre = true.
Proof.
  induction s as [|c s [pre [Heq Hsp]]]; simpl.
  - exists EmptyString. split; reflexivity.
  - destruct (is_space c) eqn:Hc.
    + exists (String c pre). simpl. rewrite Hc, Hsp. split; [congruence | reflexivity].
    + exists EmptyString. split; reflexivity.
Qed.

Lemma lstrip_first (s : string) (c : ascii) :
  first_char (lstrip s) = Some c -> is_space c = false.
Proof.
  induction s as [|a s IH]; simpl; [discriminate |].
  destruct (is_space a) eqn:Ha; [exact IH |].
  simpl. intros [= <-]. exact Ha.
Qed.

Lemma rstrip_decomp (s : string) :
  exists post, s = rstrip s +:+ post /\ all_space post = true.
Proof.
  induction s as [|c s [post [Heq Hsp]]]; simpl.
  - exists EmptyString. split; reflexivity.
  - destruct (rstrip s) as [|a r] eqn:Hr.
    + simpl in Heq. subst post.
      destruct (is_space c) eqn:Hc.
      * exists (String c s). simpl. rewrite Hc, Hsp. split; reflexivity.
      * exists s. split; [reflexivity | exact Hsp].
    + exists post. split; [simpl in *; congruence | exact Hsp].
Qed.

Lemma rstrip_last (s : string) (c : ascii) :
  last_char (rstrip s) = Some c -> is_space c = false.
Proof.
  induction s as [|a s IH]; simpl; [discriminate |].
  destruct (rstrip s) as [|b r] eqn:Hr.
  - destruct (is_space a) eqn:Ha; simpl; [discriminate |].
    intros [= <-]. exact Ha.
  - intros H. apply IH. exact H.
Qed.

Lemma rstrip_first (s : string) (c : ascii) :
  first_char (rstrip s) = Some c -> first_char s = Some c.
Proof.
  destruct s as [|a s]; simpl; [discriminate |].
  destruct (rstrip s) as [|b r].
  - destruct (is_space a); simpl; [discriminate | tauto].
  - simpl. tauto.
Qed.

(** What [strip] returns: the text between a leading and a trailing
    run of whitespace, itself neither starting nor ending with
    whitespace. *)
Lemma strip_spec (s : string) :
  exists pre post,
    s = pre +:+ strip s +:+ post
    /\ all_space pre = true /\ all_space post = true
    /\ (forall c, first_char (strip s) = Some c -> is_space c = false)
    /\ (forall c, last_char (strip s) = Some c -> is_space c = false).
Proof.
  destruct (lstrip_decomp s) as [pre [Hpre Hsp]].
  destruct (rstrip_decomp (lstrip s)) as [post [Hpost Hsq]].
  exists pre, post. unfold strip. repeat split; try assumption.
  - rewrite <- Hpost. exact Hpre.
  - intros c Hc. apply (lstrip_first s). now apply rstrip_first.
  - intros c Hc. now apply (rstrip_last (lstrip s)).
Qed.

(** *** Lines of a file *)

Lemma lines_go_concat (cur s : string) :
  String.concat EmptyString (lines_go cur s) = cur +:+ s.
Proof.
  revert cur. induction s as [|c s IH]; intros cur; simpl.
  - destruct cur; simpl; [reflexivity |]. now rewrite append_nil_r.
  - destruct (Ascii.eqb c nl).
    + specialize (IH EmptyString).
      destruct (lines_go EmptyString s) as [|l ls] eqn:E.
      * simpl in IH. subst s. reflexivity.
      * change (String.concat EmptyString ((cur +:+ String c EmptyString) :: l :: ls))
          with ((cur +:+ String c EmptyString) +:+ EmptyString
                +:+ String.concat EmptyString (l :: ls)).
        rewrite IH. simpl. now rewrite append_snoc.
    + rewrite IH. now rewrite append_snoc.
Qed.

(** The lines of a file, put end to end, are the file. *)
Lemma file_lines_concat (content : string) :
  String.concat EmptyString (file_lines content) = universal_newlines content.
Proof. unfold file_lines. now rewrite lines_go_concat. Qed.

Lemma contains_char_app (c : ascii) (a b : string) :
  contains_char c (a +:+ b) = contains_char c a || contains_char c b.
Proof.
  induction a as [|x a IH]; simpl; [reflexivity |].
  rewrite IH. now rewrite orb_assoc.
Qed.

Lemma lines_go_shape (cur s : string) :
  contains_char nl cur = false -> Forall line_shape (lines_go cur s).
Proof.
  revert cur. induction s as [|c s IH]; intros cur Hcur; simpl.
  - destruct cur as [|a cur]; constructor; [| constructor].
    exists (String a cur). split; [exact Hcur |]. right. split; [reflexivity | discriminate].
  - destruct (Ascii.eqb c nl) eqn:Hc.
    + apply Ascii.eqb_eq in Hc. subst c. constructor.
      * exists cur. split; [exact Hcur | now left].
      * now apply IH.
    + apply IH. rewrite contains_char_app, Hcur. simpl. now rewrite Hc.
Qed.

Lemma file_lines_shape (content : string) :
  Forall line_shape (file_lines content).
Proof. now apply lines_go_shape. Qed.

(** Where the lines end: every line but the last is closed by its
    newline, and a last line that is not closed is not empty. *)
Lemma lines_go_pinned (s cur : string) :
  contains_char nl cur = false ->
  forall (i : nat) (line : string),
    lines_go cur s !! i = Some line ->
    exists body,
      contains_char nl body = false
      /\ (line = body +:+ String nl EmptyString
          \/ (line = body /\ body <> EmptyString /\ S i = length (lines_go cur s))).
Proof.
  revert cur. induction s as [|c s IH]; intros cur Hcur i line Hi.
  - simpl in *. destruct cur as [|a cur]; [destruct i; discriminate Hi |].
    destruct i as [|i]; [| destruct i; discriminate Hi].
    injection Hi as <-. exists (String a cur).
    split; [exact Hcur |]. right. split; [reflexivity |]. split; [discriminate | reflexivity].
  - cbn [lines_go] in *. destruct (Ascii.eqb c nl) eqn:Hc.
    + apply Ascii.eqb_eq in Hc. subst c. destruct i as [|i].
      * injection Hi as <-. exists cur. split; [exact Hcur | now left].
      * destruct (IH EmptyString eq_refl i line Hi) as (body & Hb & [Hl | (Hl & Hne & Hlen)]).
        -- exists body. split; [exact Hb | now left].
        -- exists body. split; [exact Hb |]. right.
           split; [exact Hl |]. split; [exact Hne |]. cbn [length]. now rewrite Hlen.
    + apply (IH (cur +:+ String c EmptyString)); [| exact Hi].
      rewrite contains_char_app, Hcur. simpl. now rewrite Hc.
Qed.

Lemma file_lines_pinned (content : string) (i : nat) (line : string) :
  file_lines content !! i = Some line ->
  exists body,
    contains_char nl body = false
    /\ (line = body +:+ String nl EmptyString
        \/ (line = body /\ body <> EmptyString /\ S i = length (file_lines content))).
Proof. unfold file_lines. now apply lines_go_pinned. Qed.

(** *** Universal newlines *)

Lemma universal_newlines_no_cr (s : string) :
  contains_char cr (universal_newlines s) = false.
Proof.
  induction s as [|c s IH]; [reflexivity |].
  cbn [universal_newlines]. destruct (Ascii.eqb c cr) eqn:Hc.
  - destruct s as [|c' s']; [reflexivity |].
    destruct (Ascii.eqb c' nl); [exact IH |].
    cbn [contains_char]. now rewrite IH.
  - cbn [contains_char]. now rewrite Hc, IH.
Qed.

Lemma universal_newlines_plain (s : string) :
  contains_char cr s = false -> universal_newlines s = s.
Proof.
  induction s as [|c s IH]; [reflexivity |].
  cbn [contains_char universal_newlines]. intros H.
  apply orb_false_iff in H as [Hc Hs]. rewrite Hc. now rewrite IH.
Qed.

(** *** [split] on the newline *)

Lemma split_go_nonempty (sep : string) (skip : nat) (cur s : string) :
  split_go sep skip cur s <> [].
Proof.
  revert skip cur. induction s as [|c s IH]; intros skip cur; simpl; [discriminate |].
  destruct skip as [|k]; [| apply IH].
  destruct (startswith sep (String c s)); [discriminate | apply IH].
Qed.

Lemma split_nl_step (cur : string) (c : ascii) (s : string) :
  split_go nlsep 0 cur (String c s) =
    if Ascii.eqb nl c then cur :: split_go nlsep 0 EmptyString s
    else split_go nlsep 0 (cur +:+ String c EmptyString) s.
Proof.
  unfold nlsep. cbn [split_go startswith String.length Nat.sub].
  destruct (Ascii.eqb nl c); reflexivity.
Qed.

Lemma join_cons (sep x : string) (l : list string) :
  l <> [] -> join sep (x :: l) = x +:+ sep +:+ join sep l.
Proof. destruct l; [congruence | reflexivity]. Qed.

Lemma split_go_nl_join (cur s : string) :
  join nlsep (split_go nlsep 0 cur s) = cur +:+ s.
Proof.
  revert cur. induction s as [|c s IH]; intros cur.
  - simpl. now rewrite append_nil_r.
  - rewrite split_nl_step. destruct (Ascii.eqb nl c) eqn:Hc.
    + apply Ascii.eqb_eq in Hc. subst c.
      rewrite join_cons by apply split_go_nonempty.
      rewrite IH. reflexivity.
    + rewrite IH. now rewrite append_snoc.
Qed.

Lemma split_go_nl_pieces (cur s : string) :
  contains_char nl cur = false ->
  Forall (fun piece => contains_char nl piece = false) (split_go nlsep 0 cur s).
Proof.
  revert cur. induction s as [|c s IH]; intros cur Hcur.
  - simpl. constructor; [exact Hcur | constructor].
  - rewrite split_nl_step. destruct (Ascii.eqb nl c) eqn:Hc.
    + constructor; [exact Hcur |]. now apply IH.
    + apply IH. rewrite contains_char_app, Hcur. simpl.
      rewrite Ascii.eqb_sym, Hc. reflexivity.
Qed.

(** Splitting on the newline cuts the text into its lines: joined by
    newlines they give the text back, and none holds a newline. *)
Lemma split_nl_spec (value : string) :
  exists first rest,
    split nlsep value = first :: rest
    /\ join nlsep (first :: rest) = value
    /\ Forall (fun piece => contains_char nl piece = false) (first :: rest).
Proof.
  unfold split.
  destruct (split_go nlsep 0 EmptyString value) as [|first rest] eqn:E.
  - now apply split_go_nonempty in E.
  - exists first, rest. split; [reflexivity |]. rewrite <- E. split.
    + now rewrite split_go_nl_join.
    + now apply split_go_nl_pieces.
Qed.

(** Appending inside a loop builds the list [map] would. *)
Lemma fold_append_map {A B} (f : A -> B) (l : list A) (acc : list B) :
  fold_left (fun contr x => (contr ++ [f x])%list) l acc = (acc ++ map f l)%list.
Proof.
  revert acc. induction l as [|x l IH]; intros acc; simpl.
  - now rewrite app_nil_r.
  - rewrite IH. now rewrite <- app_assoc.
Qed.

End PyStrFacts.

(** ** Facts about the statements of the script *)

Module SetupFacts.
Import PyStr PyFormat PyConfig PyTuple Setup Spec PyStrFacts.

Lemma bind_ok {A B} (c : M A) (k : A -> M B) (s s' : State) (a : A) :
  c s = (Ok a, s') -> bind c k s = k a s'.
Proof. unfold bind. now intros ->. Qed.

Lemma bind_raise {A B} (c : M A) (k : A -> M B) (s s' : State) (e : exn) :
  c s = (Raise e, s') -> bind c k s = (Raise e, s').
Proof. unfold bind. now intros ->. Qed.

Lemma logged_nil (s : State) : logged s [] = s.
Proof. destruct s. unfold logged. simpl. now rewrite app_nil_r. Qed.

Lemma logged_logged (s : State) (l1 l2 : list event) :
  logged (logged s l1) l2 = logged s (l1 ++ l2)%list.
Proof. unfold logged. simpl. now rewrite app_assoc. Qed.

(** *** The interpreter gate *)

Lemma is_right_py_version_below (w : World) (s : State) :
  below_minimum (sys_version_info w) ->
  is_right_py_version w min_version s
  = (Ok false, logged s [StderrWrite (gate_message w)]).
Proof.
  unfold below_minimum, is_right_py_version, gate_message, bind, lift,
    version_tuple, min_version.
  destruct (sys_version_info w) as [ma mi mc rl se]. simpl.
  intros H.
  destruct (Z.eqb_spec ma 3) as [-> | Hma]; simpl.
  - destruct (Z.eqb_spec mi 6) as [-> | Hmi]; simpl.
    + destruct (Z.eqb_spec mc 1) as [-> | Hmc]; simpl; [lia |].
      destruct (Z.ltb_spec mc 1); [reflexivity | lia].
    + destruct (Z.ltb_spec mi 6); [reflexivity | lia].
  - destruct (Z.ltb_spec ma 3); [reflexivity | lia].
Qed.

Lemma is_right_py_version_meets (w : World) (s : State) :
  ~ below_minimum (sys_version_info w) ->
  is_right_py_version w min_version s = (Ok true, s).
Proof.
  unfold below_minimum, is_right_py_version, bind, lift, version_tuple,
    min_version.
  destruct (sys_version_info w) as [ma mi mc rl se]. simpl.
  intros H.
  destruct (Z.eqb_spec ma 3) as [-> | Hma]; simpl.
  - destruct (Z.eqb_spec mi 6) as [-> | Hmi]; simpl.
    + destruct (Z.eqb_spec mc 1) as [-> | Hmc]; simpl; [reflexivity |].
      destruct (Z.ltb_spec mc 1); [lia | reflexivity].
    + destruct (Z.ltb_spec mi 6); [lia | reflexivity].
  - destruct (Z.ltb_spec ma 3); [lia | reflexivity].
Qed.

Lemma below_minimum_dec (v : version_info_t) :
  {below_minimum v} + {~ below_minimum v}.
Proof.
  unfold below_minimum.
  destruct (Z_lt_dec (major v) 3%Z); [left; lia |].
  destruct (Z.eq_dec (major v) 3%Z); [| right; lia].
  destruct (Z_lt_dec (minor v) 6%Z); [left; lia |].
  destruct (Z.eq_dec (minor v) 6%Z); [| right; lia].
  destruct (Z_lt_dec (micro v) 1%Z); [left; lia | right; lia].
Qed.

Lemma version_gate_below (w : World) (s : State) :
  below_minimum (sys_version_info w) ->
  version_gate w s
  = (Raise (SystemExit (-1)), logged s [StderrWrite (gate_message w)]).
Proof.
  intros H. unfold version_gate.
  rewrite (bind_ok _ _ _ _ _ (is_right_py_version_below w s H)). reflexivity.
Qed.

Lemma version_gate_meets (w : World) (s : State) :
  ~ below_minimum (sys_version_info w) ->
  version_gate w s = (Ok tt, s).
Proof.
  intros H. unfold version_gate.
  rewrite (bind_ok _ _ _ _ _ (is_right_py_version_meets w s H)). reflexivity.
Qed.

(** *** Extension descriptors *)

Lemma build_ext_modules_spec (w : World) (table : list (string * list string))
                             (s : State) :
  build_ext_modules w table s
  = (Ok (descriptors w table), logged s (map ExtensionBuilt (descriptors w table))).
Proof.
  revert s. induction table as [|[key srcs] rest IH]; intros s.
  - simpl. unfold ret. now rewrite logged_nil.
  - simpl. unfold bind at 1. unfold new_Extension, bind at 1, log, ret. simpl.
    unfold bind at 1. rewrite IH. unfold ret, logged. simpl.
    now rewrite <- app_assoc.
Qed.

(** *** The contributors file and the meta module *)

Lemma get_contributors_list_found (filename content : string) (s : State) :
  fs s !! filename = Some content ->
  get_contributors_list filename s = (Ok (map strip (file_lines content)), s).
Proof.
  intros H. unfold get_contributors_list, bind, open_r, ret.
  rewrite H. now rewrite fold_append_map.
Qed.

Lemma get_contributors_list_missing (filename : string) (s : State) :
  fs s !! filename = None ->
  get_contributors_list filename s = (Raise (FileNotFoundError filename), s).
Proof.
  intros H. unfold get_contributors_list, bind, open_r. now rewrite H.
Qed.

Lemma format_META_PY_TEXT (author version full_version isrelease : string)
                          (contributors : list string) :
  format META_PY_TEXT
    [ ("author", VStr author);
      ("version", VStr version);
      ("full_version", VStr full_version);
      ("isrelease", VStr isrelease);
      ("contributors", VList contributors) ]
  = Ok (meta_module_text author version full_version isrelease
          (str_of_list contributors)).
Proof. vm_compute. reflexivity. Qed.

Lemma write_meta_found (g : Settings) (filename content : string) (s : State) :
  fs s !! "CONTRIBUTORS" = Some content ->
  write_meta g filename s
  = (Ok tt,
     mkState (<[filename := written_meta g (map strip (file_lines content))]> (fs s))
             (trace s ++ [writing_notice])).
Proof.
  intros H. unfold write_meta.
  unfold bind at 1. unfold print, log. cbn [fs trace].
  erewrite bind_ok; [| apply get_contributors_list_found; exact H].
  unfold bind at 1, open_w. cbn [fs trace].
  unfold try_finally, bind, lift, file_close, ret, file_write. cbn [fs trace].
  rewrite format_META_PY_TEXT. cbn [fs trace].
  rewrite lookup_insert_eq. cbn [default from_option id].
  rewrite insert_insert_eq. reflexivity.
Qed.

Lemma write_meta_missing (g : Settings) (filename : string) (s : State) :
  fs s !! "CONTRIBUTORS" = None ->
  write_meta g filename s
  = (Raise (FileNotFoundError "CONTRIBUTORS"), logged s [writing_notice]).
Proof.
  intros H. unfold write_meta.
  unfold bind at 1. unfold print, log. cbn [fs trace].
  erewrite bind_raise; [reflexivity |].
  apply get_contributors_list_missing. exact H.
Qed.

(** *** Source generation and the backend *)

Lemma generate_cython_spec (w : World) (s : State) :
  generate_cython w s
  = (if (returncode (cythonize w) =? 0)%Z then Ok tt else Raise generation_error,
     logged s (generation_events w)).
Proof.
  unfold generate_cython, subprocess_call, bind, print, log, ret, raise, logged,
    generation_events, cythonize_argv. cbn [fs trace].
  rewrite <- app_assoc.
  destruct (returncode (cythonize w) =? 0)%Z; reflexivity.
Qed.

Lemma setup_spec (w : World) (metadata : Metadata) (s : State) :
  setup w metadata s
  = (match setup_raises w with Some e => Raise e | None => Ok tt end,
     logged s [SetupCall metadata]).
Proof.
  unfold setup, bind, log, raise, ret, logged. cbn [fs trace].
  destruct (setup_raises w); reflexivity.
Qed.

(** *** Loading the settings *)

Lemma pure_ret {A} (a : A) : pure (ret a).
Proof. now intros s. Qed.

Lemma pure_raise {A} (e : exn) : pure (@raise A e).
Proof. now intros s. Qed.

Lemma pure_bind {A B} (c : M A) (k : A -> M B) :
  pure c -> (forall a, pure (k a)) -> pure (bind c k).
Proof.
  intros Hc Hk s. unfold bind. specialize (Hc s).
  destruct (c s) as [[a | e] s']; simpl in Hc; subst s'; [apply Hk | reflexivity].
Qed.

Lemma pure_config_section (w : World) (name : string) : pure (config_section w name).
Proof.
  unfold config_section. destruct (config w !! name); [apply pure_ret | apply pure_raise].
Qed.

Lemma pure_getitem (section : gmap string string) (key : string) :
  pure (getitem section key).
Proof.
  unfold getitem. destruct (section !! key) as [value |]; [| apply pure_raise].
  intros st. reflexivity.
Qed.

Lemma pure_read_text (path : string) : pure (read_text path).
Proof. intros s. unfold read_text, bind, open_r. now destruct (fs s !! path). Qed.

Lemma pure_check_expected (cfg : gmap string string) (keys : list string) :
  pure (check_expected cfg keys).
Proof.
  induction keys as [|i rest IH]; simpl; [apply pure_ret |].
  destruct (has_option cfg i); [exact IH | apply pure_raise].
Qed.

Lemma pure_load_metadata (w : World) : pure (load_metadata w).
Proof.
  unfold load_metadata.
  repeat first
    [ apply pure_config_section | apply pure_getitem | apply pure_read_text
    | apply pure_check_expected | apply pure_ret
    | apply pure_bind; [| intros ?] ].
Qed.

Lemma load_metadata_state (w : World) (s : State) :
  load_metadata w s = (fst (load_metadata w s), s).
Proof.
  pose proof (pure_load_metadata w s) as H.
  destruct (load_metadata w s) as [r s']. simpl in *. now subst.
Qed.

Lemma check_expected_spec (cfg : gmap string string) (keys : list string) (s : State) :
  check_expected cfg keys s
  = (match first_missing cfg keys with
     | Some key => Raise (missing_setting key)
     | None => Ok tt
     end, s).
Proof.
  induction keys as [|i rest IH]; simpl; [reflexivity |].
  destruct (has_option cfg i); simpl; [exact IH | reflexivity].
Qed.

Lemma has_option_true (cfg : gmap string string) (key : string) :
  has_option cfg key = true <-> is_Some (cfg !! key).
Proof. unfold has_option. apply bool_decide_eq_true. Qed.

Lemma has_option_false (cfg : gmap string string) (key : string) :
  has_option cfg key = false <-> cfg !! key = None.
Proof.
  unfold has_option. rewrite bool_decide_eq_false. rewrite <- eq_None_not_Some.
  reflexivity.
Qed.

Lemma first_missing_none (cfg : gmap string string) (keys : list string) :
  (forall key, In key keys -> is_Some (cfg !! key)) ->
  first_missing cfg keys = None.
Proof.
  intros H. unfold first_missing.
  induction keys as [|i rest IH]; simpl; [reflexivity |].
  assert (Hi : has_option cfg i = true) by (apply has_option_true, H; now left).
  rewrite Hi. simpl. apply IH. intros key Hk. apply H. now right.
Qed.

Lemma first_missing_none_inv (cfg : gmap string string) (keys : list string) :
  first_missing cfg keys = None ->
  forall key, In key keys -> is_Some (cfg !! key).
Proof.
  unfold first_missing. intros H key Hin.
  pose proof (find_none _ _ H key Hin) as Hhas.
  now apply negb_false_iff, has_option_true in Hhas.
Qed.

Lemma first_missing_only (cfg : gmap string string) (keys : list string)
                         (key : string) :
  In key keys -> cfg !! key = None ->
  (forall other, In other keys -> other <> key -> is_Some (cfg !! other)) ->
  first_missing cfg keys = Some key.
Proof.
  intros Hin Hnone Hothers. unfold first_missing.
  induction keys as [|i rest IH]; simpl; [destruct Hin |].
  destruct (string_dec i key) as [-> | Hne].
  - apply has_option_false in Hnone. now rewrite Hnone.
  - assert (Hi : has_option cfg i = true)
      by (apply has_option_true, Hothers; [now left | exact Hne]).
    rewrite Hi. simpl. apply IH.
    + destruct Hin as [-> | Hin]; [congruence | exact Hin].
    + intros other Ho. apply Hothers. now right.
Qed.

Lemma first_missing_some (cfg : gmap string string) (keys : list string)
                         (key : string) :
  first_missing cfg keys = Some key -> In key keys /\ cfg !! key = None.
Proof.
  unfold first_missing. intros H. apply find_some in H as [Hin Hneg].
  split; [exact Hin |]. apply has_option_false. now apply negb_true_iff.
Qed.

Lemma load_metadata_missing (w : World) (cfg opt : gmap string string)
                            (key : string) (s : State) :
  config w !! "metadata" = Some cfg ->
  config w !! "options" = Some opt ->
  first_missing cfg expected = Some key ->
  load_metadata w s = (Raise (missing_setting key), s).
Proof.
  intros Hcfg Hopt Hmiss. unfold load_metadata.
  unfold bind at 1. unfold config_section at 1. rewrite Hcfg. unfold ret at 1.
  unfold bind at 1. unfold config_section at 1. rewrite Hopt. unfold ret at 1.
  unfold bind at 1. rewrite check_expected_spec, Hmiss. reflexivity.
Qed.

Lemma getitem_reads (section : gmap string string) (key value : string) (s : State) :
  reads section key value -> getitem section key s = (Ok value, s).
Proof. intros (raw & Hraw & Hval). unfold getitem, lift. now rewrite Hraw, Hval. Qed.

Lemma getitem_none (section : gmap string string) (key : string) (s : State) :
  section !! key = None -> getitem section key s = (Raise (KeyError key), s).
Proof. unfold getitem. now intros ->. Qed.

(** *** Interpolation of plain values *)

Lemma scan_plain (option : string) (section : gmap string string)
                 (deeper : string -> result string) (value : string) :
  contains_char "%" value = false ->
  scan option section deeper Lit value = Ok value.
Proof.
  induction value as [|c value IH]; [reflexivity |].
  cbn [contains_char scan]. intros H. apply orb_false_iff in H as [Hc Hv].
  rewrite Hc, (IH Hv). reflexivity.
Qed.

Lemma before_get_plain (section : gmap string string) (key value : string) :
  contains_char "%" value = false -> before_get section key value = Ok value.
Proof. intros H. unfold before_get. cbn [MAX_INTERPOLATION_DEPTH interpolate]. now apply scan_plain. Qed.

Lemma reads_plain (section : gmap string string) (key value : string) :
  section !! key = Some value -> contains_char "%" value = false ->
  reads section key value.
Proof. intros Hv Hp. exists value. split; [exact Hv | now apply before_get_plain]. Qed.


Lemma bind_ok_inv {A B} (c : M A) (k : A -> M B) (s s' : State) (b : B) :
  bind c k s = (Ok b, s') ->
  exists a s1, c s = (Ok a, s1) /\ k a s1 = (Ok b, s').
Proof.
  unfold bind. destruct (c s) as [[a | e] s1]; [| discriminate].
  intros H. now exists a, s1.
Qed.

Lemma config_section_ok_inv (w : World) (name : string) (s s' : State)
                            (section : gmap string string) :
  config_section w name s = (Ok section, s') ->
  config w !! name = Some section /\ s' = s.
Proof.
  unfold config_section. destruct (config w !! name); [| discriminate].
  unfold ret. now intros [= -> ->].
Qed.

Lemma getitem_ok_inv (section : gmap string string) (key value : string)
                     (s s' : State) :
  getitem section key s = (Ok value, s') ->
  reads section key value /\ s' = s.
Proof.
  unfold getitem, reads. destruct (section !! key) as [raw |]; [| discriminate].
  unfold lift. intros [= H ->]. split; [now exists raw | reflexivity].
Qed.

Lemma read_text_ok_inv (path content : string) (s s' : State) :
  read_text path s = (Ok content, s') ->
  exists raw, fs s !! path = Some raw /\ content = universal_newlines raw /\ s' = s.
Proof.
  unfold read_text, bind, open_r. destruct (fs s !! path) as [raw |]; [| discriminate].
  unfold ret. intros [= <- <-]. now exists raw.
Qed.

Lemma check_expected_ok_inv (cfg : gmap string string) (keys : list string)
                            (s s' : State) (u : unit) :
  check_expected cfg keys s = (Ok u, s') ->
  first_missing cfg keys = None /\ s' = s.
Proof.
  rewrite check_expected_spec.
  destruct (first_missing cfg keys); [discriminate |]. now intros [= _ ->].
Qed.

(** One statement of the module body at a time: in a run that reaches
    the end, every lookup has bound its value. *)
Ltac load_step H :=
  let a := fresh "v" in
  let s1 := fresh "s" in
  let Hc := fresh "Hc" in
  apply bind_ok_inv in H as (a & s1 & Hc & H);
  first
    [ apply config_section_ok_inv in Hc as [Hc ->]
    | apply getitem_ok_inv in Hc as [Hc ->]
    | apply read_text_ok_inv in Hc as (? & Hc & -> & ->)
    | apply check_expected_ok_inv in Hc as [Hc ->] ].

(** Everything a successful load has read, and the record it binds. *)
Lemma load_metadata_ok_full (w : World) (s s' : State) (g : Settings) :
  load_metadata w s = (Ok g, s') ->
  exists (cfg opt : gmap string string)
         (name author email license url dl descr long kw req cl mp : string),
    config w !! "metadata" = Some cfg
    /\ config w !! "options" = Some opt
    /\ first_missing cfg expected = None
    /\ reads cfg "name" name
    /\ reads cfg "author" author
    /\ reads cfg "author_email" email
    /\ reads cfg "license" license
    /\ reads cfg "git_url" url
    /\ reads cfg "download_url" dl
    /\ reads cfg "description" descr
    /\ fs s !! "LONG_DESCRIPTION.md" = Some long
    /\ reads cfg "keywords" kw
    /\ reads opt "pip_requirements" req
    /\ reads cfg "classifiers" cl
    /\ reads opt "min_python" mp
    /\ g = mkSettings name author email (author +:+ " <" +:+ email +:+ ">") license
             ["Any"] url dl (found_packages w) descr (universal_newlines long)
             (split ", " kw) (split ", " req) (classifiers_of cl) (">=" +:+ mp)
    /\ s' = s.
Proof.
  intros H. unfold load_metadata in H.
  do 15 load_step H.
  unfold ret in H. injection H as <- <-.
  eexists _, _, _, _, _, _, _, _, _, _, _, _, _, _.
  split; [eassumption |]. split; [eassumption |]. split; [eassumption |].
  split; [eassumption |]. split; [eassumption |]. split; [eassumption |].
  split; [eassumption |]. split; [eassumption |]. split; [eassumption |].
  split; [eassumption |]. split; [eassumption |]. split; [eassumption |].
  split; [eassumption |]. split; [eassumption |]. split; [eassumption |].
  split; reflexivity.
Qed.

Lemma config_section_some (w : World) (name : string) (s : State)
                          (section : gmap string string) :
  config w !! name = Some section ->
  config_section w name s = (Ok section, s).
Proof. unfold config_section. now intros ->. Qed.

Lemma read_text_some (path content : string) (s : State) :
  fs s !! path = Some content ->
  read_text path s = (Ok (universal_newlines content), s).
Proof. unfold read_text, bind, open_r. now intros ->. Qed.

Lemma in_expected (key : string) :
  In key expected <->
  In key [ "description"; "keywords"; "author"; "author_email"; "contributors";
           "name"; "user"; "git_branch"; "license"; "status"; "audience";
           "language"; "dev_language" ].
Proof.
  replace expected with
    [ "description"; "keywords"; "author"; "author_email"; "contributors";
      "name"; "user"; "git_branch"; "license"; "status"; "audience";
      "language"; "dev_language" ] by (vm_compute; reflexivity).
  reflexivity.
Qed.

Lemma load_metadata_ok (w : World) (cfg opt : gmap string string) (s : State) :
  config w !! "metadata" = Some cfg ->
  config w !! "options" = Some opt ->
  (forall key, In key expected -> is_Some (cfg !! key)) ->
  readable cfg "name" ->
  readable cfg "author" ->
  readable cfg "author_email" ->
  readable cfg "license" ->
  readable cfg "git_url" ->
  readable cfg "download_url" ->
  readable cfg "description" ->
  readable cfg "keywords" ->
  readable opt "pip_requirements" ->
  readable cfg "classifiers" ->
  readable opt "min_python" ->
  is_Some (fs s !! "LONG_DESCRIPTION.md") ->
  exists g, load_metadata w s = (Ok g, s).
Proof.
  intros Hcfg Hopt Hexp [name Hname] [author Hauthor] [email Hemail]
    [license Hlicense] [url Hurl] [dl Hdl] [descr Hdescr] [kw Hkw] [req Hreq]
    [cl Hcl] [mp Hmp] [ld Hld].
  assert (Hchk : check_expected cfg expected s = (Ok tt, s))
    by (rewrite check_expected_spec; now rewrite (first_missing_none _ _ Hexp)).
  eexists. unfold load_metadata.
  rewrite (bind_ok _ _ _ _ _ (config_section_some _ _ _ _ Hcfg)).
  rewrite (bind_ok _ _ _ _ _ (config_section_some _ _ _ _ Hopt)).
  rewrite (bind_ok _ _ _ _ _ Hchk).
  rewrite (bind_ok _ _ _ _ _ (getitem_reads _ _ _ _ Hname)).
  rewrite (bind_ok _ _ _ _ _ (getitem_reads _ _ _ _ Hauthor)).
  rewrite (bind_ok _ _ _ _ _ (getitem_reads _ _ _ _ Hemail)).
  rewrite (bind_ok _ _ _ _ _ (getitem_reads _ _ _ _ Hlicense)).
  rewrite (bind_ok _ _ _ _ _ (getitem_reads _ _ _ _ Hurl)).
  rewrite (bind_ok _ _ _ _ _ (getitem_reads _ _ _ _ Hdl)).
  rewrite (bind_ok _ _ _ _ _ (getitem_reads _ _ _ _ Hdescr)).
  rewrite (bind_ok _ _ _ _ _ (read_text_some _ _ _ Hld)).
  rewrite (bind_ok _ _ _ _ _ (getitem_reads _ _ _ _ Hkw)).
  rewrite (bind_ok _ _ _ _ _ (getitem_reads _ _ _ _ Hreq)).
  rewrite (bind_ok _ _ _ _ _ (getitem_reads _ _ _ _ Hcl)).
  rewrite (bind_ok _ _ _ _ _ (getitem_reads _ _ _ _ Hmp)).
  unfold ret. reflexivity.
Qed.

(** *** The pipeline, path by path *)

Lemma setup_package_missing (w : World) (g : Settings) (exts : list Extension)
                            (s : State) :
  fs s !! "CONTRIBUTORS" = None ->
  setup_package w g exts s
  = (Raise (FileNotFoundError "CONTRIBUTORS"), logged s [writing_notice]).
Proof.
  intros H. unfold setup_package.
  now rewrite (bind_raise _ _ _ _ _ (write_meta_missing g _ s H)).
Qed.

Lemma setup_package_failed (w : World) (g : Settings) (exts : list Extension)
                           (content : string) (s : State) :
  fs s !! "CONTRIBUTORS" = Some content ->
  returncode (cythonize w) <> 0%Z ->
  setup_package w g exts s
  = (Raise generation_error,
     logged (meta_written g content s) (generation_events w)).
Proof.
  intros H Hrc. unfold setup_package.
  rewrite (bind_ok _ _ _ _ _ (write_meta_found g _ content s H)).
  fold (meta_written g content s).
  unfold RUN_CYTHON_BUILD. unfold bind. rewrite generate_cython_spec.
  apply Z.eqb_neq in Hrc. now rewrite Hrc.
Qed.

Lemma setup_package_delegated (w : World) (g : Settings) (exts : list Extension)
                              (content : string) (s : State) :
  fs s !! "CONTRIBUTORS" = Some content ->
  returncode (cythonize w) = 0%Z ->
  setup_package w g exts s
  = (match setup_raises w with Some e => Raise e | None => Ok tt end,
     logged (logged (meta_written g content s) (generation_events w))
            [SetupCall (metadata_of g exts)]).
Proof.
  intros H Hrc. unfold setup_package.
  rewrite (bind_ok _ _ _ _ _ (write_meta_found g _ content s H)).
  fold (meta_written g content s).
  unfold RUN_CYTHON_BUILD. unfold bind. rewrite generate_cython_spec.
  rewrite Hrc. cbn [Z.eqb]. rewrite setup_spec. reflexivity.
Qed.

Lemma compiles_false (v : version_info_t) :
  before_fstrings v -> compiles v = false.
Proof.
  unfold before_fstrings, compiles. intros H.
  destruct (Z.ltb_spec 3 (major v)); [lia |].
  destruct (Z.eqb_spec (major v) 3); [| reflexivity].
  destruct (Z.leb_spec 6 (minor v)); [lia | reflexivity].
Qed.

Lemma compiles_true (v : version_info_t) :
  ~ before_fstrings v -> compiles v = true.
Proof.
  unfold before_fstrings, compiles. intros H.
  destruct (Z.ltb_spec 3 (major v)); [reflexivity |].
  destruct (Z.eqb_spec (major v) 3); [| lia].
  destruct (Z.leb_spec 6 (minor v)); [reflexivity | lia].
Qed.

Lemma before_fstrings_dec (v : version_info_t) :
  {before_fstrings v} + {~ before_fstrings v}.
Proof.
  unfold before_fstrings.
  destruct (Z_lt_dec (major v) 3%Z); [left; lia |].
  destruct (Z.eq_dec (major v) 3%Z); [| right; lia].
  destruct (Z_lt_dec (minor v) 6%Z); [left; lia | right; lia].
Qed.

Lemma meets_minimum_compiles (v : version_info_t) :
  ~ below_minimum v -> ~ before_fstrings v.
Proof. unfold below_minimum, before_fstrings. lia. Qed.

Lemma main_syntax_error (w : World) (s : State) :
  before_fstrings (sys_version_info w) ->
  main w s = (Raise (SyntaxError "invalid syntax"), s).
Proof. intros H. unfold main. now rewrite (compiles_false _ H). Qed.

Lemma main_gate_closed (w : World) (s : State) :
  ~ before_fstrings (sys_version_info w) ->
  below_minimum (sys_version_info w) ->
  main w s = (Raise (SystemExit (-1)), logged s [StderrWrite (gate_message w)]).
Proof.
  intros Hc H. unfold main. rewrite (compiles_true _ Hc). unfold module_body.
  now rewrite (bind_raise _ _ _ _ _ (version_gate_below w s H)).
Qed.

Lemma main_gate_open (w : World) (s : State) :
  ~ below_minimum (sys_version_info w) ->
  main w s
  = bind (load_metadata w)
      (fun g => bind (build_ext_modules w EXTENSIONS)
                  (fun EXT_MODULES => setup_package w g EXT_MODULES)) s.
Proof.
  intros H. unfold main.
  rewrite (compiles_true _ (meets_minimum_compiles _ H)). unfold module_body.
  now rewrite (bind_ok _ _ _ _ _ (version_gate_meets w s H)).
Qed.

Lemma main_load_failed (w : World) (s : State) (e : exn) :
  ~ below_minimum (sys_version_info w) ->
  fst (load_metadata w s) = Raise e ->
  main w s = (Raise e, s).
Proof.
  intros H Hl. rewrite main_gate_open by exact H.
  apply bind_raise. rewrite load_metadata_state. now rewrite Hl.
Qed.

Lemma main_loaded (w : World) (s : State) (g : Settings) :
  ~ below_minimum (sys_version_info w) ->
  fst (load_metadata w s) = Ok g ->
  main w s
  = setup_package w g (descriptors w EXTENSIONS) (logged s (built_events w)).
Proof.
  intros H Hl. rewrite main_gate_open by exact H.
  erewrite bind_ok; [| rewrite load_metadata_state; now rewrite Hl].
  erewrite bind_ok; [| apply build_ext_modules_spec].
  reflexivity.
Qed.

(** Every run ends in one of these six ways. *)
Lemma main_ending (w : World) (s : State) :
  ending w s (fst (main w s)) (snd (main w s)).
Proof.
  destruct (before_fstrings_dec (sys_version_info w)) as [Hf | Hf];
    [rewrite main_syntax_error by exact Hf; now apply end_syntax |].
  destruct (below_minimum_dec (sys_version_info w)) as [Hb | Hb].
  - rewrite main_gate_closed by assumption. now apply end_gate.
  - destruct (fst (load_metadata w s)) as [g | e] eqn:Hl.
    + rewrite (main_loaded w s g Hb Hl).
      destruct (fs s !! "CONTRIBUTORS") as [content |] eqn:Hc.
      * destruct (Z.eq_dec (returncode (cythonize w)) 0%Z) as [Hrc | Hrc].
        -- rewrite (setup_package_delegated w g _ content (logged s (built_events w)) Hc Hrc).
           now apply end_delegated.
        -- rewrite (setup_package_failed w g _ content (logged s (built_events w)) Hc Hrc).
           now apply end_generation with (g := g).
      * rewrite (setup_package_missing w g _ (logged s (built_events w)) Hc).
        now apply end_contributors with (g := g).
    + rewrite (main_load_failed w s e Hb Hl). now apply end_load.
Qed.

(** *** Counting the descriptors built *)

Lemma built_events_only_built (w : World) (e : event) :
  In e (built_events w) -> is_built e = true.
Proof.
  unfold built_events. intros H. apply in_map_iff in H as (x & <- & _). reflexivity.
Qed.

Lemma count_built_built_events (w : World) :
  count_built (built_events w) = length EXTENSIONS.
Proof.
  unfold count_built, built_events, descriptors.
  generalize EXTENSIONS. intros table.
  induction table as [|entry table IH]; [reflexivity |].
  cbn [map List.filter is_built length]. now rewrite IH.
Qed.

End SetupFacts.

(** ** The properties of the specification *)

Import PyStr PyFormat PyConfig PyTuple Setup Spec PyStrFacts SetupFacts.

(** C8, on the code: the gate statement itself turns away every
    interpreter older than 3.6.1 with [sys.exit(-1)] and lets every
    other one pass.  But the file is compiled before the gate runs, and
    its f-strings do not compile before 3.6: there the run ends with
    [SyntaxError] and no statement, the gate included, has run.  Only
    for 3.6.0 does the script leave with [sys.exit(-1)] at the gate,
    with nothing but the message written; from 3.6.1 on the gate passes
    without a trace and the run goes on with the rest of the module
    body. *)
Theorem interpreter_gate (w : World) (s : State) :
  (before_fstrings (sys_version_info w) ->
     below_minimum (sys_version_info w)
     /\ main w s = (Raise (SyntaxError "invalid syntax"), s))
  /\ (below_minimum (sys_version_info w) ->
      version_gate w s
      = (Raise (SystemExit (-1)), logged s [StderrWrite (gate_message w)]))
  /\ (~ before_fstrings (sys_version_info w) ->
      below_minimum (sys_version_info w) ->
      main w s
      = (Raise (SystemExit (-1)), logged s [StderrWrite (gate_message w)]))
  /\ (~ below_minimum (sys_version_info w) ->
      version_gate w s = (Ok tt, s)
      /\ main w s
         = bind (load_metadata w)
             (fun g => bind (build_ext_modules w EXTENSIONS)
                         (fun EXT_MODULES => setup_package w g EXT_MODULES)) s).
Proof.
  split; [| split; [| split]].
  - intros H. split; [| now apply main_syntax_error].
    unfold before_fstrings, below_minimum in *. lia.
  - intros H. now apply version_gate_below.
  - intros Hc H. now apply main_gate_closed.
  - intros H. split; [now apply version_gate_meets | now apply main_gate_open].
Qed.

Lemma interpreter_gate_witness :
  (below_minimum (sys_version_info Examples.py35_world)
   /\ main Examples.py35_world Examples.start
      = (Raise (SyntaxError "invalid syntax"), Examples.start))
  /\ (below_minimum (sys_version_info Examples.old_world)
      /\ fst (main Examples.old_world Examples.start) = Raise (SystemExit (-1)))
  /\ (~ below_minimum (sys_version_info Examples.good_world)
      /\ version_gate Examples.good_world Examples.start = (Ok tt, Examples.start)).
Proof.
  assert (H35 : before_fstrings (sys_version_info Examples.py35_world)).
  { unfold before_fstrings. simpl. lia. }
  assert (Hold : below_minimum (sys_version_info Examples.old_world)).
  { unfold below_minimum. simpl. lia. }
  assert (Hold' : ~ before_fstrings (sys_version_info Examples.old_world)).
  { unfold before_fstrings. simpl. lia. }
  assert (Hnew : ~ below_minimum (sys_version_info Examples.good_world)).
  { unfold below_minimum. simpl. lia. }
  split; [| split].
  - destruct (interpreter_gate Examples.py35_world Examples.start) as [Hsyn _].
    exact (Hsyn H35).
  - split; [exact Hold |].
    destruct (interpreter_gate Examples.old_world Examples.start) as (_ & _ & Hgate & _).
    rewrite (Hgate Hold' Hold). reflexivity.
  - split; [exact Hnew |].
    destruct (interpreter_gate Examples.good_world Examples.start) as (_ & _ & _ & Hgate).
    destruct (Hgate Hnew) as [Hok _]. exact Hok.
Defined.

(** C6: with compiler type "msvc" the hook gives every extension the
    extra compile arguments ["/EHsc"], whatever it had before, and
    changes nothing else; a compiler type that is not a key of [copt],
    such as "gcc", leaves the command as it was; the hook itself cannot
    raise: [build_extensions] ends the way the base class method ends,
    called on the configured command. *)
Theorem toolchain_configuration :
  (forall exts : list Extension,
     let exts' := extensions (apply_copt (mkBuildExt "msvc" exts)) in
     length exts' = length exts
     /\ forall (i : nat) (e : Extension),
          exts !! i = Some e ->
          exts' !! i
          = Some (mkExtension (ext_name e) (sources e) (include_dirs e) ["/EHsc"]))
  /\ (forall (c : string) (exts : list Extension),
        copt !! c = None -> apply_copt (mkBuildExt c exts) = mkBuildExt c exts)
  /\ copt !! "gcc" = None
  /\ (forall (base : build_ext -> M unit) (self : build_ext) (s : State),
        build_extensions base self s
        = (result_map (fun _ => apply_copt self) (fst (base (apply_copt self) s)),
           snd (base (apply_copt self) s))).
Proof.
  split; [| split; [| split]].
  - intros exts exts'. subst exts'.
    assert (Hm : copt !! "msvc" = Some ["/EHsc"]) by (vm_compute; reflexivity).
    unfold apply_copt. cbn [compiler_type extensions]. rewrite Hm.
    cbn [extensions]. split; [apply length_map |].
    intros i e Hi. rewrite list_lookup_fmap, Hi. reflexivity.
  - intros c exts Hc. unfold apply_copt. cbn [compiler_type]. now rewrite Hc.
  - vm_compute. reflexivity.
  - intros base self s. unfold build_extensions, bind, ret.
    destruct (base (apply_copt self) s) as [[u | e] s']; reflexivity.
Qed.

Lemma toolchain_configuration_witness :
  copt !! "gcc" = None
  /\ apply_copt (mkBuildExt "gcc" (descriptors Examples.good_world EXTENSIONS))
     = mkBuildExt "gcc" (descriptors Examples.good_world EXTENSIONS).
Proof.
  assert (H : copt !! "gcc" = None) by (vm_compute; reflexivity).
  split; [exact H |].
  destruct toolchain_configuration as (_ & Habsent & _).
  apply Habsent. exact H.
Defined.

(** C4: for every contributors file, [get_contributors_list] returns
    one text per line of the file, in the order of the file, each being
    the line without its leading and trailing whitespace; a blank line
    gives the empty text and is kept.  The lines are those of the file
    read with universal newlines: a line ends at LF, at CR LF or at a
    CR on its own, every line but the last is closed, and a last line
    that is not closed is not empty.  The lines "Alice", "  ", "Bob"
    give ["Alice"; ""; "Bob"]. *)
Theorem contributors_one_per_line (filename content : string) (s : State) :
  fs s !! filename = Some content ->
  exists contr : list string,
    get_contributors_list filename s = (Ok contr, s)
    /\ length contr = length (file_lines content)
    /\ String.concat EmptyString (file_lines content) = universal_newlines content
    /\ contains_char cr (universal_newlines content) = false
    /\ (contains_char cr content = false -> universal_newlines content = content)
    /\ (forall (i : nat) (line : string),
          file_lines content !! i = Some line ->
          exists body,
            contains_char nl body = false
            /\ (line = body +:+ String nl EmptyString
                \/ (line = body /\ body <> EmptyString
                    /\ S i = length (file_lines content))))
    /\ (forall (i : nat) (line : string),
          file_lines content !! i = Some line ->
          exists pre post,
            contr !! i = Some (strip line)
            /\ line = pre +:+ strip line +:+ post
            /\ all_space pre = true /\ all_space post = true
            /\ (forall c, first_char (strip line) = Some c -> is_space c = false)
            /\ (forall c, last_char (strip line) = Some c -> is_space c = false))
    /\ (content = Examples.alice_bob -> contr = ["Alice"; ""; "Bob"])
    /\ (content = Examples.alice_bob_carol -> contr = ["Alice"; "Bob"; "Carol"]).
Proof.
  intros H. exists (map strip (file_lines content)).
  split; [now apply get_contributors_list_found |].
  split; [apply length_map |].
  split; [apply file_lines_concat |].
  split; [apply universal_newlines_no_cr |].
  split; [apply universal_newlines_plain |].
  split; [apply file_lines_pinned |].
  split; [| split].
  - intros i line Hi.
    destruct (strip_spec line) as (pre & post & Heq & Hpre & Hpost & Hfirst & Hlast).
    exists pre, post. rewrite list_lookup_fmap, Hi.
    split; [reflexivity |]. split; [exact Heq |]. split; [exact Hpre |].
    split; [exact Hpost |]. split; [exact Hfirst | exact Hlast].
  - intros ->. vm_compute. reflexivity.
  - intros ->. vm_compute. reflexivity.
Qed.

Lemma contributors_one_per_line_witness :
  exists contr : list string,
    get_contributors_list "CONTRIBUTORS" Examples.start = (Ok contr, Examples.start)
    /\ contr = ["Alice"; ""; "Bob"].
Proof.
  assert (H : fs Examples.start !! "CONTRIBUTORS" = Some Examples.alice_bob)
    by (vm_compute; reflexivity).
  destruct (contributors_one_per_line "CONTRIBUTORS" Examples.alice_bob
              Examples.start H) as (contr & Hrun & _ & _ & _ & _ & Hex).
  exists contr. split; [exact Hrun | now apply Hex].
Defined.

(** C9: [write_meta] reads the contributors file before it opens its
    target; when that file does not exist the call raises
    [FileNotFoundError] and every file, the earlier meta module among
    them, is as it was: neither cut nor written. *)
Theorem write_meta_reads_first (g : Settings) (filename : string) (s : State) :
  fs s !! "CONTRIBUTORS" = None ->
  exists s' : State,
    write_meta g filename s = (Raise (FileNotFoundError "CONTRIBUTORS"), s')
    /\ fs s' = fs s
    /\ fs s' !! filename = fs s !! filename
    /\ trace s' = (trace s ++ [writing_notice])%list.
Proof.
  intros H. exists (logged s [writing_notice]).
  split; [now apply write_meta_missing |]. repeat split.
Qed.

Lemma write_meta_reads_first_witness :
  exists s' : State,
    write_meta (mkSettings "caer" "Ada" "a@b" "Ada <a@b>" "MIT" [] "" "" [] "" "" [] [] [] "")
               "caer/_meta.py"
               (mkState (<["caer/_meta.py" := "stale"]> ∅) [])
    = (Raise (FileNotFoundError "CONTRIBUTORS"), s')
    /\ fs s' !! "caer/_meta.py" = Some "stale".
Proof.
  destruct (write_meta_reads_first
              (mkSettings "caer" "Ada" "a@b" "Ada <a@b>" "MIT" [] "" "" [] "" "" [] [] [] "")
              "caer/_meta.py"
              (mkState (<["caer/_meta.py" := "stale"]> ∅) []))
    as (s' & Hrun & _ & Hfile & _).
  - vm_compute. reflexivity.
  - exists s'. split; [exact Hrun |]. rewrite Hfile. vm_compute. reflexivity.
Defined.

(** C5: writing the meta module twice with the same author, version,
    release flag and contributors file leaves the same text in the
    target both times; the text is a function of those inputs alone, so
    whatever the target held before is gone. *)
Theorem write_meta_idempotent (g : Settings) (filename content : string) (s : State) :
  fs s !! "CONTRIBUTORS" = Some content ->
  filename <> "CONTRIBUTORS" ->
  exists s1 s2 : State,
    write_meta g filename s = (Ok tt, s1)
    /\ write_meta g filename s1 = (Ok tt, s2)
    /\ fs s1 !! filename = Some (written_meta g (map strip (file_lines content)))
    /\ fs s2 !! filename = fs s1 !! filename
    /\ fs s2 = fs s1.
Proof.
  intros Hc Hne.
  eexists _, _. split; [apply (write_meta_found g filename content s Hc) |].
  cbn [fs].
  assert (Hc1 : fs (mkState
                      (<[filename := written_meta g (map strip (file_lines content))]> (fs s))
                      (trace s ++ [writing_notice])) !! "CONTRIBUTORS" = Some content).
  { cbn [fs]. rewrite lookup_insert_ne by exact Hne. exact Hc. }
  split; [apply (write_meta_found g filename content _ Hc1) |].
  cbn [fs]. rewrite insert_insert_eq.
  split; [apply lookup_insert_eq |]. split; reflexivity.
Qed.

Lemma write_meta_idempotent_witness :
  exists s1 s2 : State,
    write_meta (mkSettings "caer" "Ada" "a@b" "Ada <a@b>" "MIT" [] "" "" [] "" "" [] [] [] "")
               "caer/_meta.py" Examples.start = (Ok tt, s1)
    /\ write_meta (mkSettings "caer" "Ada" "a@b" "Ada <a@b>" "MIT" [] "" "" [] "" "" [] [] [] "")
                  "caer/_meta.py" s1 = (Ok tt, s2)
    /\ fs s2 !! "caer/_meta.py" = fs s1 !! "caer/_meta.py".
Proof.
  destruct (write_meta_idempotent
              (mkSettings "caer" "Ada" "a@b" "Ada <a@b>" "MIT" [] "" "" [] "" "" [] [] [] "")
              "caer/_meta.py" Examples.alice_bob Examples.start)
    as (s1 & s2 & H1 & H2 & _ & H3 & _).
  - vm_compute. reflexivity.
  - discriminate.
  - exists s1, s2. split; [exact H1 |]. split; [exact H2 | exact H3].
Defined.

(** C7: with the script's version 1.3.3 and release flag, the meta
    module that [write_meta] leaves has the lines [version = '1.3.3'],
    [full_version = '1.3.3'] and [release = True], whatever the author
    and the contributors are; the two version fields are filled from the
    same value. *)
Theorem meta_module_reports_version (g : Settings) (content : string) (s : State) :
  fs s !! "CONTRIBUTORS" = Some content ->
  VERSION = "1.3.3"
  /\ ISRELEASED = true
  /\ exists s' : State,
       write_meta g "caer/_meta.py" s = (Ok tt, s')
       /\ fs s' !! "caer/_meta.py"
          = Some (nlsep
                  +:+ "# This file is automatically generated during the generation of setup.py"
                  +:+ nlsep
                  +:+ "# Copyright 2020, Caer" +:+ nlsep
                  +:+ "author = '" +:+ AUTHOR_LONG g +:+ "'" +:+ nlsep
                  +:+ "version = '1.3.3'" +:+ nlsep
                  +:+ "full_version = '1.3.3'" +:+ nlsep
                  +:+ "release = True" +:+ nlsep
                  +:+ "contributors = "
                  +:+ str_of_list (map strip (file_lines content)) +:+ nlsep).
Proof.
  intros H. split; [reflexivity |]. split; [reflexivity |].
  eexists. split; [apply (write_meta_found g _ content s H) |].
  cbn [fs]. rewrite lookup_insert_eq. reflexivity.
Qed.

Lemma meta_module_reports_version_witness :
  exists s' : State,
    write_meta (mkSettings "caer" "Ada" "a@b" "Ada <a@b>" "MIT" [] "" "" [] "" "" [] [] [] "")
               "caer/_meta.py" Examples.start = (Ok tt, s')
    /\ fs s' !! "caer/_meta.py"
       = Some (nlsep
               +:+ "# This file is automatically generated during the generation of setup.py"
               +:+ nlsep
               +:+ "# Copyright 2020, Caer" +:+ nlsep
               +:+ "author = 'Ada <a@b>'" +:+ nlsep
               +:+ "version = '1.3.3'" +:+ nlsep
               +:+ "full_version = '1.3.3'" +:+ nlsep
               +:+ "release = True" +:+ nlsep
               +:+ "contributors = ['Alice', '', 'Bob']" +:+ nlsep).
Proof.
  destruct (meta_module_reports_version
              (mkSettings "caer" "Ada" "a@b" "Ada <a@b>" "MIT" [] "" "" [] "" "" [] [] [] "")
              Examples.alice_bob Examples.start)
    as (_ & _ & s' & Hrun & Hfile).
  - vm_compute. reflexivity.
  - exists s'. split; [exact Hrun |]. rewrite Hfile. vm_compute. reflexivity.
Defined.

(** C10, as the script has it: the classifiers are the newline-separated
    pieces of the configured value without the piece at position 0, in
    their order.  The value is the first piece, a newline, and the
    classifiers joined by newlines.  The text of the first piece is among
    the classifiers exactly when it is also a later piece.  The
    configured value is what [cfg['classifiers']] gives: the text of the
    option after interpolation, which is the text as written when it
    has no percent sign. *)
Theorem classifiers_drop_first_piece (w : World) (s s' : State) (g : Settings) :
  load_metadata w s = (Ok g, s') ->
  exists (cfg : gmap string string) (raw value first : string),
    config w !! "metadata" = Some cfg
    /\ cfg !! "classifiers" = Some raw
    /\ before_get cfg "classifiers" raw = Ok value
    /\ (contains_char "%" raw = false -> value = raw)
    /\ split nlsep value = first :: CLASSIFIERS g
    /\ join nlsep (first :: CLASSIFIERS g) = value
    /\ Forall (fun piece => contains_char nl piece = false) (first :: CLASSIFIERS g)
    /\ length (CLASSIFIERS g) = (length (split nlsep value) - 1)%nat
    /\ (forall i : nat, CLASSIFIERS g !! i = split nlsep value !! S i)
    /\ (In first (CLASSIFIERS g) <->
        exists i : nat, split nlsep value !! S i = Some first).
Proof.
  intros H.
  destruct (load_metadata_ok_full w s s' g H)
    as (cfg & opt & name & author & email & license & url & dl & descr & long
        & kw & req & value & mp & Hcfg & _ & _ & _ & _ & _ & _ & _ & _ & _ & _
        & _ & _ & (raw & Hraw & Hval) & _ & -> & _).
  destruct (split_nl_spec value) as (first & rest & Hsplit & Hjoin & Hpieces).
  assert (Hrest : classifiers_of value = rest).
  { unfold classifiers_of. fold nlsep. now rewrite Hsplit. }
  exists cfg, raw, value, first. cbn [CLASSIFIERS]. rewrite Hrest, Hsplit.
  split; [exact Hcfg |]. split; [exact Hraw |]. split; [exact Hval |].
  split.
  { intros Hplain. rewrite (before_get_plain cfg "classifiers" raw Hplain) in Hval.
    now injection Hval. }
  split; [reflexivity |].
  split; [exact Hjoin |]. split; [exact Hpieces |].
  split; [simpl; lia |]. split; [reflexivity |].
  cbn [lookup list_lookup]. rewrite <- list_elem_of_In. apply list_elem_of_lookup.
Qed.

Lemma classifiers_drop_first_piece_witness :
  exists (cfg : gmap string string) (raw value first : string),
    config Examples.good_world !! "metadata" = Some cfg
    /\ cfg !! "classifiers" = Some raw
    /\ before_get cfg "classifiers" raw = Ok value
    /\ split nlsep value = first :: CLASSIFIERS Examples.good_settings.
Proof.
  destruct (classifiers_drop_first_piece Examples.good_world Examples.start
              Examples.start Examples.good_settings)
    as (cfg & raw & value & first & Hcfg & Hraw & Hval & _ & Hsplit & _).
  - vm_compute. reflexivity.
  - exists cfg, raw, value, first.
    split; [exact Hcfg |]. split; [exact Hraw |]. split; [exact Hval | exact Hsplit].
Defined.

(** C10 as it is worded fails: when the first line of the classifiers
    value occurs again further down, it is in the resulting list. *)
Lemma classifiers_first_line_counterexample :
  (exists g : Settings,
     fst (load_metadata Examples.repeated_world Examples.start) = Ok g
     /\ hd EmptyString (split nlsep ("A" +:+ nlsep +:+ "A")) = "A"
     /\ In "A" (CLASSIFIERS g))
  /\ ~ (forall value : string,
          ~ In (hd EmptyString (split nlsep value)) (classifiers_of value)).
Proof.
  split.
  - eexists. split; [vm_compute; reflexivity |].
    split; [vm_compute; reflexivity |]. cbn [CLASSIFIERS]. now left.
  - intros H. apply (H ("A" +:+ nlsep +:+ "A")). vm_compute. now left.
Qed.

(** C3, as the script has it.  The configuration has the sections
    [metadata] and [options].  When one of the thirteen settings is
    missing, loading ends with the assertion error that names the first
    missing one in the order of [expected] -- so the one that is
    missing when only one is -- and nothing has happened by then: no
    file is changed and nothing is recorded.  When all thirteen are
    there the check passes, and loading succeeds once each of the
    eleven settings the module body reads -- [git_url], [download_url],
    [classifiers], [pip_requirements] and [min_python] among them -- is
    set and passes the interpolation of percent signs, as every
    value without a percent sign does, and [LONG_DESCRIPTION.md] can be
    read. *)
Theorem required_settings_checked (w : World) (cfg opt : gmap string string)
                                  (s : State) :
  config w !! "metadata" = Some cfg ->
  config w !! "options" = Some opt ->
  expected
  = [ "description"; "keywords"; "author"; "author_email"; "contributors";
      "name"; "user"; "git_branch"; "license"; "status"; "audience";
      "language"; "dev_language" ]
  /\ ((exists key, In key expected /\ cfg !! key = None) ->
      exists key,
        In key expected /\ cfg !! key = None
        /\ first_missing cfg expected = Some key
        /\ load_metadata w s = (Raise (missing_setting key), s)
        /\ (~ below_minimum (sys_version_info w) ->
            main w s = (Raise (missing_setting key), s)))
  /\ (forall key,
        In key expected -> cfg !! key = None ->
        (forall other, In other expected -> other <> key -> is_Some (cfg !! other)) ->
        load_metadata w s = (Raise (missing_setting key), s)
        /\ (~ below_minimum (sys_version_info w) ->
            main w s = (Raise (missing_setting key), s)))
  /\ ((forall key, In key expected -> is_Some (cfg !! key)) ->
      check_expected cfg expected s = (Ok tt, s)
      /\ (readable cfg "name" ->
          readable cfg "author" ->
          readable cfg "author_email" ->
          readable cfg "license" ->
          readable cfg "git_url" ->
          readable cfg "download_url" ->
          readable cfg "description" ->
          readable cfg "keywords" ->
          readable opt "pip_requirements" ->
          readable cfg "classifiers" ->
          readable opt "min_python" ->
          is_Some (fs s !! "LONG_DESCRIPTION.md") ->
          exists g, load_metadata w s = (Ok g, s)))
  /\ (forall (section : gmap string string) (key value : string),
        section !! key = Some value -> contains_char "%" value = false ->
        readable section key).
Proof.
  intros Hcfg Hopt.
  assert (Hfail : forall key,
             first_missing cfg expected = Some key ->
             load_metadata w s = (Raise (missing_setting key), s)
             /\ (~ below_minimum (sys_version_info w) ->
                 main w s = (Raise (missing_setting key), s))).
  { intros key Hkey.
    pose proof (load_metadata_missing w cfg opt key s Hcfg Hopt Hkey) as Hload.
    split; [exact Hload |]. intros Hgate.
    apply main_load_failed; [exact Hgate | now rewrite Hload]. }
  split; [vm_compute; reflexivity |]. split; [| split; [| split]].
  - intros (key & Hin & Hnone).
    destruct (first_missing cfg expected) as [first |] eqn:Hfirst.
    + destruct (first_missing_some cfg expected first Hfirst) as [Hin' Hnone'].
      destruct (Hfail first eq_refl) as [Hload Hmain].
      exists first.
      split; [exact Hin' |]. split; [exact Hnone' |]. split; [reflexivity |].
      split; [exact Hload | exact Hmain].
    + pose proof (first_missing_none_inv cfg expected Hfirst key Hin) as Hhas.
      rewrite Hnone in Hhas. destruct Hhas as [v Hv]. discriminate Hv.
  - intros key Hin Hnone Hothers. apply Hfail.
    now apply first_missing_only.
  - intros Hall. split.
    + rewrite check_expected_spec. now rewrite (first_missing_none _ _ Hall).
    + intros. now apply (load_metadata_ok w cfg opt s).
  - intros section key value Hv Hp. exists value. now apply reads_plain.
Qed.

Lemma required_settings_checked_witness :
  exists key : string,
    delete "license" Examples.metadata_section !! key = None
    /\ load_metadata Examples.unlicensed_world Examples.start
       = (Raise (missing_setting key), Examples.start).
Proof.
  destruct (required_settings_checked Examples.unlicensed_world
              (delete "license" Examples.metadata_section)
              Examples.options_section Examples.start)
    as (_ & Hsome & _).
  - apply lookup_insert_eq.
  - unfold Examples.unlicensed_world, Examples.world_with. cbn [config].
    unfold Examples.unlicensed_config, Examples.full_config.
    rewrite lookup_insert_ne by discriminate.
    rewrite lookup_insert_ne by discriminate.
    apply lookup_insert_eq.
  - destruct Hsome as (key & _ & Hnone & _ & Hload & _).
    + exists "license". split; [apply in_expected; simpl; tauto |].
      apply lookup_delete_eq.
    + exists key. split; [exact Hnone | exact Hload].
Defined.

(** C3 as it is worded fails on three counts: a configuration with all
    thirteen settings does not load when [git_url] is not set; a
    configuration without the [options] section ends with the key error
    of that section, not with the name of the setting it lacks; and a
    configuration with every setting the module body reads does not
    load when a value has a percent sign on its own. *)
Lemma required_settings_counterexample :
  (forallb (has_option Examples.thirteen_section) expected = true
   /\ config Examples.thirteen_world !! "metadata" = Some Examples.thirteen_section
   /\ fst (load_metadata Examples.thirteen_world Examples.start)
      = Raise (KeyError "git_url"))
  /\ (config Examples.no_options_world !! "metadata"
      = Some (delete "name" Examples.metadata_section)
      /\ delete "name" Examples.metadata_section !! "name" = None
      /\ fst (load_metadata Examples.no_options_world Examples.start)
         = Raise (KeyError "options"))
  /\ (forallb (has_option Examples.percent_section)
              (expected ++ ["git_url"; "download_url"; "classifiers"]) = true
      /\ forallb (has_option Examples.options_section)
                 ["pip_requirements"; "min_python"] = true
      /\ config Examples.percent_world !! "metadata" = Some Examples.percent_section
      /\ config Examples.percent_world !! "options" = Some Examples.options_section
      /\ Examples.percent_section !! "description" = Some "100% fun"
      /\ fst (load_metadata Examples.percent_world Examples.start)
         = Raise (InterpolationSyntaxError "description" bad_percent)).
Proof.
  split; [| split].
  - split; [vm_compute; reflexivity |].
    split; [apply lookup_insert_eq | vm_compute; reflexivity].
  - split; [apply lookup_insert_eq |].
    split; [apply lookup_delete_eq | vm_compute; reflexivity].
  - split; [vm_compute; reflexivity |]. split; [vm_compute; reflexivity |].
    split; [apply lookup_insert_eq |].
    split.
    { unfold Examples.percent_world, Examples.world_with. cbn [config].
      unfold Examples.percent_config, Examples.full_config.
      rewrite lookup_insert_ne by discriminate.
      rewrite lookup_insert_ne by discriminate.
      apply lookup_insert_eq. }
    split; [apply lookup_insert_eq | vm_compute; reflexivity].
Qed.

(** C2, as the script has it: [generate_cython] succeeds exactly when
    the child's exit status is zero; every other status ends in one and
    the same [RuntimeError] with a fixed message, which does not hold
    the status; what the child wrote to its output streams plays no
    part. *)
Theorem generation_exit_status (w : World) (s : State) :
  (returncode (cythonize w) = 0%Z ->
     generate_cython w s = (Ok tt, logged s (generation_events w)))
  /\ (returncode (cythonize w) <> 0%Z ->
      generate_cython w s
      = (Raise (RuntimeError "[ERROR] Running cythonize failed!"),
         logged s (generation_events w)))
  /\ (forall out err : string,
        generate_cython (with_child_output w out err) s = generate_cython w s).
Proof.
  split; [| split].
  - intros H. rewrite generate_cython_spec, H. reflexivity.
  - intros H. rewrite generate_cython_spec. apply Z.eqb_neq in H. now rewrite H.
  - intros out err. rewrite !generate_cython_spec. reflexivity.
Qed.

Lemma generation_exit_status_witness :
  generate_cython Examples.good_world Examples.start
  = (Ok tt, logged Examples.start (generation_events Examples.good_world))
  /\ fst (generate_cython Examples.failing_world Examples.start)
     = Raise (RuntimeError "[ERROR] Running cythonize failed!").
Proof.
  split.
  - destruct (generation_exit_status Examples.good_world Examples.start) as (Hzero & _).
    apply Hzero. reflexivity.
  - destruct (generation_exit_status Examples.failing_world Examples.start)
      as (_ & Hfail & _).
    rewrite Hfail; [reflexivity | discriminate].
Defined.

(** C2 as it is worded fails: exit statuses 1 and 2 raise the same
    exception, so no reading of the exception gives the status back. *)
Lemma generation_error_counterexample :
  fst (generate_cython (Examples.world_with Examples.py38 Examples.full_config 1)
         Examples.start)
  = fst (generate_cython (Examples.world_with Examples.py38 Examples.full_config 2)
           Examples.start)
  /\ ~ (exists code_of : exn -> Z,
          forall (w : World) (s : State),
            returncode (cythonize w) <> 0%Z ->
            exists e s', generate_cython w s = (Raise e, s')
                         /\ code_of e = returncode (cythonize w)).
Proof.
  split; [reflexivity |].
  intros (code_of & H).
  destruct (H (Examples.world_with Examples.py38 Examples.full_config 1) Examples.start)
    as (e1 & s1 & Hrun1 & Hcode1); [discriminate |].
  destruct (H (Examples.world_with Examples.py38 Examples.full_config 2) Examples.start)
    as (e2 & s2 & Hrun2 & Hcode2); [discriminate |].
  rewrite generate_cython_spec in Hrun1, Hrun2.
  cbn in Hrun1, Hrun2. injection Hrun1 as <- _. injection Hrun2 as <- _.
  cbn in Hcode1, Hcode2. congruence.
Qed.

(** C1, as the script has it.  In a run in which the cythonize child
    is started and exits with a status other than zero, the run ends
    with the generation error and [setup] is not called; the
    [Extension] descriptors, one per entry of [EXTENSIONS], have been
    built by then, since the module body builds them before
    [setup_package] starts.  In every run a call of [setup] comes after
    the call of the child, and the child has exited with status zero. *)
Theorem generation_before_delegation (w : World) (files : gmap string string) :
  (forall (argv : list string) (cwd : string),
     In (SubprocessCall argv cwd) (trace (snd (run w files))) ->
     returncode (cythonize w) <> 0%Z ->
     fst (run w files) = Raise generation_error
     /\ (forall md, ~ In (SetupCall md) (trace (snd (run w files))))
     /\ trace (snd (run w files))
        = (built_events w ++ [writing_notice] ++ generation_events w)%list
     /\ count_built (trace (snd (run w files))) = length EXTENSIONS)
  /\ (forall md : Metadata,
        In (SetupCall md) (trace (snd (run w files))) ->
        returncode (cythonize w) = 0%Z
        /\ md_ext_modules md = descriptors w EXTENSIONS
        /\ trace (snd (run w files))
           = (built_events w ++ [writing_notice] ++ generation_events w
              ++ [SetupCall md])%list).
Proof.
  unfold run.
  pose proof (main_ending w (mkState files [])) as Hend.
  destruct (main w (mkState files [])) as [r s']. cbn [fst snd] in *.
  assert (Hbuilt : forall e, In e (built_events w) ->
                             is_generation e = false /\ is_delegation e = false).
  { intros e He. apply built_events_only_built in He. now destruct e. }
  inversion Hend as [Hf | Hf Hb | e Hb Hl | g Hb Hl Hc | g content Hb Hl Hc Hrc
                     | g content Hb Hl Hc Hrc]; subst; cbn [trace logged meta_written app].
  - split.
    + intros argv cwd [].
    + intros md [].
  - split.
    + intros argv cwd [Hin | []]. discriminate Hin.
    + intros md [Hin | []]. discriminate Hin.
  - split.
    + intros argv cwd [].
    + intros md [].
  - split.
    + intros argv cwd Hin _. apply in_app_or in Hin as [Hin | [Hin | []]].
      * apply Hbuilt in Hin as [Hin _]. discriminate Hin.
      * discriminate Hin.
    + intros md Hin. apply in_app_or in Hin as [Hin | [Hin | []]].
      * apply Hbuilt in Hin as [_ Hin]. discriminate Hin.
      * discriminate Hin.
  - split.
    + intros argv cwd _ _. split; [reflexivity |]. split; [| split].
      * intros md Hin. rewrite <- !app_assoc in Hin.
        apply in_app_or in Hin as [Hin | [Hin | [Hin | [Hin | []]]]];
          try discriminate Hin.
        apply Hbuilt in Hin as [_ Hin]. discriminate Hin.
      * now rewrite <- !app_assoc.
      * rewrite <- !app_assoc. unfold count_built. rewrite List.filter_app.
        rewrite length_app. fold (count_built (built_events w)).
        rewrite count_built_built_events. cbn. lia.
    + intros md Hin. rewrite <- !app_assoc in Hin.
      apply in_app_or in Hin as [Hin | [Hin | [Hin | [Hin | []]]]];
        try discriminate Hin.
      apply Hbuilt in Hin as [_ Hin]. discriminate Hin.
  - split.
    + intros argv cwd _ Hne. contradiction.
    + intros md Hin. rewrite <- !app_assoc in Hin.
      apply in_app_or in Hin as [Hin | [Hin | [Hin | [Hin | [Hin | []]]]]];
        try discriminate Hin.
      * apply Hbuilt in Hin as [_ Hin]. discriminate Hin.
      * injection Hin as <-. split; [exact Hrc |]. split; [reflexivity |].
        now rewrite <- !app_assoc.
Qed.

Lemma generation_before_delegation_witness :
  fst (run Examples.failing_world Examples.files) = Raise generation_error
  /\ forall md, ~ In (SetupCall md) (trace (snd (run Examples.failing_world Examples.files))).
Proof.
  destruct (generation_before_delegation Examples.failing_world Examples.files)
    as [Hfail _].
  destruct (Hfail (cythonize_argv Examples.failing_world)
                  (script_dir Examples.failing_world)) as (Hr & Hno & _).
  - vm_compute. tauto.
  - discriminate.
  - split; [exact Hr | exact Hno].
Defined.

(** C1 as it is worded fails: in a run whose child exits with status 1
    the five [Extension] descriptors have been built all the same. *)
Lemma generation_failure_counterexample :
  returncode (cythonize Examples.failing_world) = 1%Z
  /\ fst (run Examples.failing_world Examples.files) = Raise generation_error
  /\ count_built (trace (snd (run Examples.failing_world Examples.files))) = 5%nat
  /\ count_built (trace (snd (run Examples.failing_world Examples.files))) <> 0%nat.
Proof.
  assert (H : count_built (trace (snd (run Examples.failing_world Examples.files)))
              = 5%nat) by (vm_compute; reflexivity).
  split; [reflexivity |]. split; [vm_compute; reflexivity |].
  split; [exact H |]. rewrite H. discriminate.
Qed.

(** ** Further properties of the script *)

(** X1: [is_right_py_version] with any three-component minimum never
    raises.  An interpreter with a major version below 3 is turned away
    with the Python 2 message, whatever the minimum; from major version
    3 on, the interpreter is accepted exactly when its (major, minor,
    micro) is not below the minimum in lexicographic order, and a
    rejection names the minimum, its components joined by dots. *)
Theorem version_check_three_components (w : World) (a b c : Z) (s : State) :
  ((major (sys_version_info w) < 3)%Z ->
     is_right_py_version w [a; b; c] s
     = (Ok false, logged s [StderrWrite python2_message]))
  /\ ((3 <= major (sys_version_info w))%Z ->
      version_lt (sys_version_info w) a b c ->
      is_right_py_version w [a; b; c] s
      = (Ok false, logged s [StderrWrite (too_old_message w [a; b; c])]))
  /\ ((3 <= major (sys_version_info w))%Z ->
      ~ version_lt (sys_version_info w) a b c ->
      is_right_py_version w [a; b; c] s = (Ok true, s)).
Proof.
  unfold version_lt, is_right_py_version, too_old_message, python2_message,
    bind, lift, version_tuple.
  destruct (sys_version_info w) as [ma mi mc rl se]. cbn [major minor micro map].
  cbn [tuple_lt elem_eqb elem_lt].
  assert (Hpy2 : (if (ma =? 3)%Z then Ok false else Ok (ma <? 3)%Z)
                 = Ok (ma <? 3)%Z).
  { destruct (Z.eqb_spec ma 3) as [-> | Hne]; reflexivity. }
  rewrite Hpy2. clear Hpy2.
  split; [| split].
  - intros H. apply Z.ltb_lt in H. rewrite H. reflexivity.
  - intros Hge Hlt. destruct (Z.ltb_spec ma 3) as [Hl | _]; [lia |].
    destruct (Z.eqb_spec ma a) as [-> | Hma].
    + destruct (Z.eqb_spec mi b) as [-> | Hmi].
      * destruct (Z.eqb_spec mc c) as [-> | Hmc]; [lia |].
        cbn [elem_lt]. destruct (Z.ltb_spec mc c); [reflexivity | lia].
      * cbn [elem_lt]. destruct (Z.ltb_spec mi b); [reflexivity | lia].
    + cbn [elem_lt]. destruct (Z.ltb_spec ma a); [reflexivity | lia].
  - intros Hge Hnlt. destruct (Z.ltb_spec ma 3) as [Hl | _]; [lia |].
    destruct (Z.eqb_spec ma a) as [-> | Hma].
    + destruct (Z.eqb_spec mi b) as [-> | Hmi].
      * destruct (Z.eqb_spec mc c) as [-> | Hmc]; [reflexivity |].
        cbn [elem_lt]. destruct (Z.ltb_spec mc c); [lia | reflexivity].
      * cbn [elem_lt]. destruct (Z.ltb_spec mi b); [lia | reflexivity].
    + cbn [elem_lt]. destruct (Z.ltb_spec ma a); [lia | reflexivity].
Qed.

Lemma version_check_three_components_witness :
  is_right_py_version Examples.good_world [3; 9; 0]%Z Examples.start
  = (Ok false,
     logged Examples.start
       [StderrWrite (too_old_message Examples.good_world [3; 9; 0]%Z)])
  /\ is_right_py_version Examples.good_world [3; 8; 2]%Z Examples.start
     = (Ok true, Examples.start).
Proof.
  destruct (version_check_three_components Examples.good_world 3 9 0 Examples.start)
    as (_ & Hold & _).
  destruct (version_check_three_components Examples.good_world 3 8 2 Examples.start)
    as (_ & _ & Hnew).
  split.
  - apply Hold; [simpl; lia | unfold version_lt; simpl; lia].
  - apply Hnew; [simpl; lia | unfold version_lt; simpl; lia].
Defined.

(** X2: a minimum with more than three components whose first three
    are the interpreter's own makes the check raise [TypeError]: the
    comparison reaches the release level, a text, and an integer. *)
Theorem version_check_fourth_component (w : World) (d : Z) (more : list Z)
                                       (s : State) :
  (3 <= major (sys_version_info w))%Z ->
  exists msg : string,
    is_right_py_version w
      (major (sys_version_info w) :: minor (sys_version_info w)
       :: micro (sys_version_info w) :: d :: more) s
    = (Raise (TypeError msg), s).
Proof.
  intros Hge. unfold is_right_py_version, bind, lift, version_tuple.
  destruct (sys_version_info w) as [ma mi mc rl se]. cbn [major minor micro map] in *.
  cbn [tuple_lt elem_eqb elem_lt].
  rewrite !Z.eqb_refl.
  destruct (Z.eqb_spec ma 3) as [-> | Hne].
  - eexists. reflexivity.
  - destruct (Z.ltb_spec ma 3) as [Hl | _]; [lia |]. eexists. reflexivity.
Qed.

Lemma version_check_fourth_component_witness :
  exists msg : string,
    is_right_py_version Examples.good_world [3; 8; 2; 0]%Z Examples.start
    = (Raise (TypeError msg), Examples.start).
Proof.
  apply (version_check_fourth_component Examples.good_world 0 [] Examples.start).
  simpl. lia.
Defined.

Lemma copt_lookup (c : string) (args : list string) :
  copt !! c = Some args <-> ((c = "msvc" \/ c = "intelw") /\ args = ["/EHsc"]).
Proof.
  unfold copt. rewrite lookup_insert_Some, lookup_insert_Some, lookup_empty.
  split.
  - intros [[<- <-] | [_ [[<- <-] | [_ H]]]]; [tauto | tauto | discriminate H].
  - intros [[-> | ->] ->]; [left; tauto |].
    right. split; [discriminate |]. left. tauto.
Qed.

(** X3: the flag table knows two compiler types.  For "msvc" and for
    "intelw" the hook gives every extension exactly ["/EHsc"]; for
    every other compiler type it leaves the command as it is. *)
Theorem copt_two_compilers (self : build_ext) :
  ((compiler_type self = "msvc" \/ compiler_type self = "intelw") ->
     apply_copt self
     = mkBuildExt (compiler_type self)
         (map (set_extra_compile_args ["/EHsc"]) (extensions self)))
  /\ (compiler_type self <> "msvc" -> compiler_type self <> "intelw" ->
      apply_copt self = self).
Proof.
  unfold apply_copt. split.
  - intros Hc.
    assert (H : copt !! compiler_type self = Some ["/EHsc"])
      by (apply copt_lookup; tauto).
    now rewrite H.
  - intros Hm Hi.
    destruct (copt !! compiler_type self) as [args |] eqn:H; [| reflexivity].
    apply copt_lookup in H as [[Hc | Hc] _]; contradiction.
Qed.

Lemma copt_two_compilers_witness :
  apply_copt (mkBuildExt "intelw" (descriptors Examples.good_world EXTENSIONS))
  = mkBuildExt "intelw"
      (map (set_extra_compile_args ["/EHsc"])
           (descriptors Examples.good_world EXTENSIONS))
  /\ apply_copt (mkBuildExt "unix" (descriptors Examples.good_world EXTENSIONS))
     = mkBuildExt "unix" (descriptors Examples.good_world EXTENSIONS).
Proof.
  split.
  - destruct (copt_two_compilers
                (mkBuildExt "intelw" (descriptors Examples.good_world EXTENSIONS)))
      as [Hset _].
    apply Hset. right. reflexivity.
  - destruct (copt_two_compilers
                (mkBuildExt "unix" (descriptors Examples.good_world EXTENSIONS)))
      as [_ Hkeep].
    apply Hkeep; discriminate.
Defined.

(** X4: for every compiler type the hook keeps the number and order of
    the extensions and each one's name, sources and include
    directories; only the extra compile arguments can change.  Running
    it again changes nothing more. *)
Theorem apply_copt_frame (self : build_ext) :
  compiler_type (apply_copt self) = compiler_type self
  /\ map ext_name (extensions (apply_copt self)) = map ext_name (extensions self)
  /\ map sources (extensions (apply_copt self)) = map sources (extensions self)
  /\ map include_dirs (extensions (apply_copt self))
     = map include_dirs (extensions self)
  /\ apply_copt (apply_copt self) = apply_copt self.
Proof.
  unfold apply_copt.
  destruct (copt !! compiler_type self) as [args |] eqn:Hc.
  - cbn [compiler_type extensions]. rewrite Hc. cbn [compiler_type extensions].
    rewrite !map_map. cbn [set_extra_compile_args ext_name sources include_dirs].
    split; [reflexivity |]. split; [reflexivity |]. split; [reflexivity |].
    split; [reflexivity |]. reflexivity.
  - rewrite Hc. split; [reflexivity |]. split; [reflexivity |].
    split; [reflexivity |]. split; reflexivity.
Qed.

(** X5: building the descriptors from any table cannot fail and
    touches no file.  It gives one descriptor per entry, in the order of
    the table, with the entry's name and sources, numpy's include
    directory as the only include directory and no extra compile
    arguments, and records one construction per descriptor, in the same
    order. *)
Theorem descriptors_follow_table (w : World) (table : list (string * list string))
                                 (s : State) :
  exists exts : list Extension,
    build_ext_modules w table s
    = (Ok exts, mkState (fs s) (trace s ++ map ExtensionBuilt exts))
    /\ map ext_name exts = map fst table
    /\ map sources exts = map snd table
    /\ Forall (fun e => include_dirs e = [numpy_include w]
                        /\ extra_compile_args e = []) exts.
Proof.
  exists (descriptors w table).
  split; [apply build_ext_modules_spec |].
  unfold descriptors. rewrite !map_map. cbn [ext_name sources].
  split; [reflexivity |]. split; [reflexivity |].
  apply List.Forall_forall. intros e He. apply in_map_iff in He as (entry & <- & _).
  split; reflexivity.
Qed.

(** X6: the two sections are looked up before any setting.  Without
    the [metadata] section loading raises [KeyError] for "metadata";
    with it but without the [options] section it raises [KeyError] for
    "options", whatever the [metadata] section holds. *)
Theorem missing_section_key_error (w : World) (s : State) :
  (config w !! "metadata" = None ->
     load_metadata w s = (Raise (KeyError "metadata"), s))
  /\ (is_Some (config w !! "metadata") -> config w !! "options" = None ->
      load_metadata w s = (Raise (KeyError "options"), s)).
Proof.
  split.
  - intros H. unfold load_metadata. apply bind_raise.
    unfold config_section. now rewrite H.
  - intros [cfg Hcfg] H. unfold load_metadata.
    rewrite (bind_ok _ _ _ _ _ (config_section_some _ _ _ _ Hcfg)).
    apply bind_raise. unfold config_section. now rewrite H.
Qed.

Lemma missing_section_key_error_witness :
  load_metadata (Examples.world_with Examples.py38 ∅ 0) Examples.start
  = (Raise (KeyError "metadata"), Examples.start)
  /\ load_metadata Examples.no_options_world Examples.start
     = (Raise (KeyError "options"), Examples.start).
Proof.
  destruct (missing_section_key_error (Examples.world_with Examples.py38 ∅ 0)
              Examples.start) as [Hmeta _].
  destruct (missing_section_key_error Examples.no_options_world Examples.start)
    as [_ Hopt].
  split.
  - apply Hmeta. apply lookup_empty.
  - apply Hopt.
    + exists (delete "name" Examples.metadata_section). apply lookup_insert_eq.
    + unfold Examples.no_options_world, Examples.world_with. cbn [config].
      unfold Examples.no_options_config.
      rewrite lookup_insert_ne by discriminate. apply lookup_empty.
Defined.

(** X7: loading succeeds exactly when the configuration has both
    sections, the [metadata] section has the thirteen checked settings,
    each of the eleven settings the module body reads -- [name],
    [author], [author_email], [license], [git_url], [download_url],
    [description], [keywords] and [classifiers] of [metadata],
    [pip_requirements] and [min_python] of [options] -- is set and
    passes the interpolation of percent signs, and the file
    [LONG_DESCRIPTION.md] exists. *)
Theorem loading_succeeds_iff (w : World) (s : State) :
  (exists g, load_metadata w s = (Ok g, s))
  <-> exists cfg opt : gmap string string,
        config w !! "metadata" = Some cfg
        /\ config w !! "options" = Some opt
        /\ (forall key, In key expected -> is_Some (cfg !! key))
        /\ readable cfg "name"
        /\ readable cfg "author"
        /\ readable cfg "author_email"
        /\ readable cfg "license"
        /\ readable cfg "git_url"
        /\ readable cfg "download_url"
        /\ readable cfg "description"
        /\ readable cfg "keywords"
        /\ readable opt "pip_requirements"
        /\ readable cfg "classifiers"
        /\ readable opt "min_python"
        /\ is_Some (fs s !! "LONG_DESCRIPTION.md").
Proof.
  split.
  - intros [g H].
    destruct (load_metadata_ok_full w s s g H)
      as (cfg & opt & name & author & email & license & url & dl & descr & long
          & kw & req & cl & mp & Hcfg & Hopt & Hmiss & Hname & Hauthor & Hemail
          & Hlicense & Hurl & Hdl & Hdescr & Hlong & Hkw & Hreq & Hcl & Hmp & _).
    exists cfg, opt.
    split; [exact Hcfg |]. split; [exact Hopt |].
    split; [now apply first_missing_none_inv |].
    split; [now exists name |]. split; [now exists author |].
    split; [now exists email |]. split; [now exists license |].
    split; [now exists url |]. split; [now exists dl |].
    split; [now exists descr |]. split; [now exists kw |].
    split; [now exists req |]. split; [now exists cl |].
    split; [now exists mp |]. now exists long.
  - intros (cfg & opt & Hcfg & Hopt & Hall & Hname & Hauthor & Hemail & Hlicense
            & Hurl & Hdl & Hdescr & Hkw & Hreq & Hcl & Hmp & Hlong).
    now apply (load_metadata_ok w cfg opt s).
Qed.

(** X8: settings that the check does not cover fail one at a time, in
    the order the module body reads them.  With both sections, the
    thirteen checked settings in place and [name], [author],
    [author_email] and [license] read without an interpolation error, a
    missing [git_url] raises [KeyError] for "git_url"; with [git_url],
    [download_url] and [description] read as well, a missing
    [LONG_DESCRIPTION.md] raises [FileNotFoundError].  In both cases
    nothing has been changed. *)
Theorem unchecked_settings_fail (w : World) (cfg opt : gmap string string)
                                (s : State) :
  config w !! "metadata" = Some cfg ->
  config w !! "options" = Some opt ->
  (forall key, In key expected -> is_Some (cfg !! key)) ->
  readable cfg "name" ->
  readable cfg "author" ->
  readable cfg "author_email" ->
  readable cfg "license" ->
  (cfg !! "git_url" = None ->
     load_metadata w s = (Raise (KeyError "git_url"), s))
  /\ (readable cfg "git_url" -> readable cfg "download_url" ->
      readable cfg "description" ->
      fs s !! "LONG_DESCRIPTION.md" = None ->
      load_metadata w s = (Raise (FileNotFoundError "LONG_DESCRIPTION.md"), s)).
Proof.
  intros Hcfg Hopt Hexp [name Hname] [author Hauthor] [email Hemail]
    [license Hlicense].
  assert (Hchk : check_expected cfg expected s = (Ok tt, s))
    by (rewrite check_expected_spec; now rewrite (first_missing_none _ _ Hexp)).
  split.
  - intros Hurl. unfold load_metadata.
    rewrite (bind_ok _ _ _ _ _ (config_section_some _ _ _ _ Hcfg)).
    rewrite (bind_ok _ _ _ _ _ (config_section_some _ _ _ _ Hopt)).
    rewrite (bind_ok _ _ _ _ _ Hchk).
    rewrite (bind_ok _ _ _ _ _ (getitem_reads _ _ _ _ Hname)).
    rewrite (bind_ok _ _ _ _ _ (getitem_reads _ _ _ _ Hauthor)).
    rewrite (bind_ok _ _ _ _ _ (getitem_reads _ _ _ _ Hemail)).
    rewrite (bind_ok _ _ _ _ _ (getitem_reads _ _ _ _ Hlicense)).
    apply bind_raise. now apply getitem_none.
  - intros [url Hurl] [dl Hdl] [descr Hdescr] Hlong. unfold load_metadata.
    rewrite (bind_ok _ _ _ _ _ (config_section_some _ _ _ _ Hcfg)).
    rewrite (bind_ok _ _ _ _ _ (config_section_some _ _ _ _ Hopt)).
    rewrite (bind_ok _ _ _ _ _ Hchk).
    rewrite (bind_ok _ _ _ _ _ (getitem_reads _ _ _ _ Hname)).
    rewrite (bind_ok _ _ _ _ _ (getitem_reads _ _ _ _ Hauthor)).
    rewrite (bind_ok _ _ _ _ _ (getitem_reads _ _ _ _ Hemail)).
    rewrite (bind_ok _ _ _ _ _ (getitem_reads _ _ _ _ Hlicense)).
    rewrite (bind_ok _ _ _ _ _ (getitem_reads _ _ _ _ Hurl)).
    rewrite (bind_ok _ _ _ _ _ (getitem_reads _ _ _ _ Hdl)).
    rewrite (bind_ok _ _ _ _ _ (getitem_reads _ _ _ _ Hdescr)).
    apply bind_raise. unfold read_text, bind, open_r. now rewrite Hlong.
Qed.

Lemma thirteen_section_plain (key : string) :
  In key expected -> reads Examples.thirteen_section key "x".
Proof.
  intros Hin. apply in_expected in Hin. simpl in Hin.
  repeat (destruct Hin as [<- | Hin];
          [apply reads_plain; vm_compute; reflexivity |]).
  destruct Hin.
Qed.

Lemma unchecked_settings_fail_witness :
  load_metadata Examples.thirteen_world Examples.start
  = (Raise (KeyError "git_url"), Examples.start).
Proof.
  destruct (unchecked_settings_fail Examples.thirteen_world Examples.thirteen_section
              Examples.options_section Examples.start) as [Hurl _].
  - apply lookup_insert_eq.
  - unfold Examples.thirteen_world, Examples.world_with. cbn [config].
    unfold Examples.thirteen_config, Examples.full_config.
    rewrite lookup_insert_ne by discriminate.
    rewrite lookup_insert_ne by discriminate.
    apply lookup_insert_eq.
  - intros key Hin. destruct (thirteen_section_plain key Hin) as (raw & Hraw & _).
    now exists raw.
  - exists "x". apply thirteen_section_plain. apply in_expected. simpl. tauto.
  - exists "x". apply thirteen_section_plain. apply in_expected. simpl. tauto.
  - exists "x". apply thirteen_section_plain. apply in_expected. simpl. tauto.
  - exists "x". apply thirteen_section_plain. apply in_expected. simpl. tauto.
  - apply Hurl. vm_compute. reflexivity.
Defined.



(** *** [split] and [join] with any separator *)

Lemma startswith_prefix (p s : string) :
  startswith p s = true -> exists rest, s = p +:+ rest.
Proof.
  revert s. induction p as [|a p IH]; intros s H.
  - exists s. reflexivity.
  - destruct s as [|b s]; [discriminate H |]. simpl in H.
    destruct (Ascii.eqb a b) eqn:Hab; [| discriminate H].
    apply Ascii.eqb_eq in Hab. subst b.
    destruct (IH s H) as [rest ->]. exists rest. reflexivity.
Qed.

Lemma string_length_app (a b : string) :
  String.length (a +:+ b) = (String.length a + String.length b)%nat.
Proof. induction a as [|c a IH]; simpl; [reflexivity | now rewrite IH]. Qed.

Lemma split_go_skip (sep p rest cur : string) :
  split_go sep (String.length p) cur (p +:+ rest) = split_go sep 0 cur rest.
Proof. induction p as [|a p IH]; simpl; [reflexivity | exact IH]. Qed.

Lemma split_go_join (sep : string) (n : nat) :
  sep <> EmptyString ->
  forall s cur : string,
    (String.length s <= n)%nat ->
    join sep (split_go sep 0 cur s) = cur +:+ s.
Proof.
  intros Hsep. induction n as [|n IH]; intros s cur Hlen.
  - destruct s; [| simpl in Hlen; lia]. simpl. now rewrite append_nil_r.
  - destruct s as [|c s]; [simpl; now rewrite append_nil_r |].
    cbn [split_go].
    destruct (startswith sep (String c s)) eqn:Hstart.
    + destruct sep as [|a sep']; [congruence |].
      destruct (startswith_prefix _ _ Hstart) as [rest Hrest].
      simpl in Hrest. injection Hrest as -> ->.
      cbn [String.length]. rewrite Nat.sub_succ, Nat.sub_0_r.
      rewrite split_go_skip.
      rewrite join_cons by apply split_go_nonempty.
      rewrite IH.
      * simpl. reflexivity.
      * simpl in Hlen. rewrite string_length_app in Hlen. lia.
    + rewrite IH by (simpl in Hlen; lia). now rewrite append_snoc.
Qed.

(** X9: the keyword and requirement lists are never empty, and
    joining them with ", " gives back the configured text: what is
    between two separators is kept as it is, also when it is empty.
    The configured text is what [cfg['keywords']] and
    [opt['pip_requirements']] give, which is the text as written when
    it has no percent sign. *)
Theorem keywords_round_trip (w : World) (s s' : State) (g : Settings) :
  load_metadata w s = (Ok g, s') ->
  exists (cfg opt : gmap string string) (rawkw rawreq kw req : string),
    config w !! "metadata" = Some cfg
    /\ config w !! "options" = Some opt
    /\ cfg !! "keywords" = Some rawkw
    /\ before_get cfg "keywords" rawkw = Ok kw
    /\ (contains_char "%" rawkw = false -> kw = rawkw)
    /\ opt !! "pip_requirements" = Some rawreq
    /\ before_get opt "pip_requirements" rawreq = Ok req
    /\ (contains_char "%" rawreq = false -> req = rawreq)
    /\ join ", " (KEYWORDS g) = kw
    /\ join ", " (REQUIREMENTS g) = req
    /\ KEYWORDS g <> []
    /\ REQUIREMENTS g <> [].
Proof.
  intros H.
  destruct (load_metadata_ok_full w s s' g H)
    as (cfg & opt & name & author & email & license & url & dl & descr & long
        & kw & req & cl & mp & Hcfg & Hopt & _ & _ & _ & _ & _ & _ & _
        & _ & _ & (rawkw & Hrawkw & Hkw) & (rawreq & Hrawreq & Hreq) & _ & _ & -> & _).
  exists cfg, opt, rawkw, rawreq, kw, req. cbn [KEYWORDS REQUIREMENTS].
  split; [exact Hcfg |]. split; [exact Hopt |].
  split; [exact Hrawkw |]. split; [exact Hkw |].
  split.
  { intros Hp. rewrite (before_get_plain cfg "keywords" rawkw Hp) in Hkw.
    now injection Hkw. }
  split; [exact Hrawreq |]. split; [exact Hreq |].
  split.
  { intros Hp. rewrite (before_get_plain opt "pip_requirements" rawreq Hp) in Hreq.
    now injection Hreq. }
  unfold split.
  split; [apply (split_go_join ", " (String.length kw)); [discriminate | lia] |].
  split; [apply (split_go_join ", " (String.length req)); [discriminate | lia] |].
  split; apply split_go_nonempty.
Qed.

Lemma keywords_round_trip_witness :
  exists (cfg opt : gmap string string) (rawkw rawreq kw req : string),
    cfg !! "keywords" = Some rawkw
    /\ before_get cfg "keywords" rawkw = Ok kw
    /\ join ", " (KEYWORDS Examples.good_settings) = kw
    /\ opt !! "pip_requirements" = Some rawreq
    /\ before_get opt "pip_requirements" rawreq = Ok req
    /\ join ", " (REQUIREMENTS Examples.good_settings) = req.
Proof.
  destruct (keywords_round_trip Examples.good_world Examples.start Examples.start
              Examples.good_settings)
    as (cfg & opt & rawkw & rawreq & kw & req & _ & _ & Hrk & Hkw & _ & Hrr & Hreq
        & _ & Hk & Hr & _).
  - vm_compute. reflexivity.
  - exists cfg, opt, rawkw, rawreq, kw, req.
    split; [exact Hrk |]. split; [exact Hkw |]. split; [exact Hk |].
    split; [exact Hrr |]. split; [exact Hreq | exact Hr].
Defined.

(** *** Whitespace at the end of a line *)

Lemma lstrip_all_space (w : string) : all_space w = true -> lstrip w = EmptyString.
Proof.
  induction w as [|c w IH]; simpl; [reflexivity |].
  intros H. apply andb_true_iff in H as [Hc Hw]. rewrite Hc. now apply IH.
Qed.

Lemma rstrip_all_space (w : string) : all_space w = true -> rstrip w = EmptyString.
Proof.
  induction w as [|c w IH]; simpl; [reflexivity |].
  intros H. apply andb_true_iff in H as [Hc Hw]. rewrite (IH Hw). now rewrite Hc.
Qed.

Lemma lstrip_app (l w : string) :
  lstrip (l +:+ w) = if all_space l then lstrip w else lstrip l +:+ w.
Proof.
  induction l as [|c l IH]; simpl; [reflexivity |].
  destruct (is_space c); simpl; [exact IH | reflexivity].
Qed.

Lemma rstrip_app_space (a w : string) :
  all_space w = true -> rstrip (a +:+ w) = rstrip a.
Proof.
  intros Hw. induction a as [|c a IH]; simpl.
  - now apply rstrip_all_space.
  - now rewrite IH.
Qed.

Lemma strip_app_space (l w : string) :
  all_space w = true -> strip (l +:+ w) = strip l.
Proof.
  intros Hw. unfold strip. rewrite lstrip_app.
  destruct (all_space l) eqn:Hl.
  - rewrite (lstrip_all_space w Hw), (lstrip_all_space l Hl). reflexivity.
  - now apply rstrip_app_space.
Qed.

Lemma last_char_app (a : string) (c : ascii) (b : string) :
  last_char (a +:+ String c b) = last_char (String c b).
Proof.
  induction a as [|x a IH]; [reflexivity |].
  change (String x a +:+ String c b) with (String x (a +:+ String c b)).
  cbn [last_char]. rewrite IH.
  destruct (a +:+ String c b) eqn:E; [| reflexivity].
  destruct a; discriminate E.
Qed.

Lemma lines_go_final_newline (s cur : string) :
  cur +:+ s <> EmptyString ->
  last_char (cur +:+ s) <> Some nl ->
  map strip (lines_go cur (s +:+ nlsep)) = map strip (lines_go cur s).
Proof.
  revert cur. induction s as [|c s IH]; intros cur Hne Hlast.
  - rewrite append_nil_r in Hne. simpl.
    destruct cur as [|a cur]; [congruence |].
    cbn [map]. f_equal. apply strip_app_space. reflexivity.
  - change (String c s +:+ nlsep) with (String c (s +:+ nlsep)).
    cbn [lines_go]. destruct (Ascii.eqb c nl) eqn:Hc.
    + cbn [map]. f_equal. apply Ascii.eqb_eq in Hc. subst c.
      rewrite last_char_app in Hlast.
      apply IH.
      * destruct s; [exfalso; apply Hlast; reflexivity | discriminate].
      * destruct s; [exfalso; apply Hlast; reflexivity | exact Hlast].
    + apply IH.
      * rewrite append_snoc. exact Hne.
      * rewrite append_snoc. exact Hlast.
Qed.

Lemma lines_go_second_newline (s cur : string) :
  lines_go cur (s +:+ nlsep +:+ nlsep)
  = (lines_go cur (s +:+ nlsep) ++ [nlsep])%list.
Proof.
  revert cur. induction s as [|c s IH]; intros cur.
  - simpl. reflexivity.
  - change (String c s +:+ nlsep +:+ nlsep) with (String c (s +:+ nlsep +:+ nlsep)).
    change (String c s +:+ nlsep) with (String c (s +:+ nlsep)).
    cbn [lines_go]. destruct (Ascii.eqb c nl); rewrite IH; reflexivity.
Qed.

Lemma last_char_cons (c : ascii) (s : string) :
  s <> EmptyString -> last_char (String c s) = last_char s.
Proof. destruct s; [congruence | reflexivity]. Qed.

Lemma last_char_none (s : string) : last_char s = None -> s = EmptyString.
Proof.
  induction s as [|c s IH]; [reflexivity |].
  destruct s as [|c' s']; [discriminate |].
  rewrite last_char_cons by discriminate. intros H. discriminate (IH H).
Qed.

Lemma universal_newlines_cons2 (c c' : ascii) (s : string) :
  universal_newlines (String c (String c' s))
  = if Ascii.eqb c cr then
      if Ascii.eqb c' nl then universal_newlines (String c' s)
      else String nl (universal_newlines (String c' s))
    else String c (universal_newlines (String c' s)).
Proof. reflexivity. Qed.

Lemma universal_newlines_app_nl (s : string) :
  universal_newlines (s +:+ nlsep)
  = match last_char s with
    | Some c =>
        if Ascii.eqb c cr then universal_newlines s
        else universal_newlines s +:+ nlsep
    | None => universal_newlines s +:+ nlsep
    end.
Proof.
  induction s as [|c s IH]; [reflexivity |].
  destruct s as [|c' s'].
  - cbn [String.append last_char universal_newlines].
    destruct (Ascii.eqb c cr); reflexivity.
  - rewrite last_char_cons by discriminate.
    change (String c (String c' s') +:+ nlsep)
      with (String c (String c' (s' +:+ nlsep))).
    change (String c' s' +:+ nlsep) with (String c' (s' +:+ nlsep)) in IH.
    rewrite !universal_newlines_cons2.
    destruct (Ascii.eqb c cr); destruct (Ascii.eqb c' nl);
      rewrite IH; destruct (last_char (String c' s')) as [x |];
      try destruct (Ascii.eqb x cr); reflexivity.
Qed.

Lemma universal_newlines_last_cr (s : string) :
  last_char s = Some cr -> exists y, universal_newlines s = y +:+ nlsep.
Proof.
  induction s as [|c s IH]; [discriminate |].
  destruct s as [|c' s'].
  - cbn [last_char]. intros [= ->]. exists EmptyString. reflexivity.
  - rewrite last_char_cons by discriminate. intros H.
    destruct (IH H) as [y Hy]. rewrite universal_newlines_cons2.
    destruct (Ascii.eqb c cr); [destruct (Ascii.eqb c' nl) |].
    + now exists y.
    + exists (String nl y). now rewrite Hy.
    + exists (String c y). now rewrite Hy.
Qed.

Lemma universal_newlines_last_other (s : string) (c : ascii) :
  last_char s = Some c -> Ascii.eqb c cr = false ->
  last_char (universal_newlines s) = Some c.
Proof.
  induction s as [|a s IH]; [discriminate |].
  destruct s as [|a' s'].
  - cbn [last_char]. intros [= ->] Hc. cbn [universal_newlines]. now rewrite Hc.
  - rewrite last_char_cons by discriminate. intros H Hc.
    specialize (IH H Hc). rewrite universal_newlines_cons2.
    assert (Hne : forall t, last_char t = Some c -> t <> EmptyString)
      by (intros t Ht ->; discriminate Ht).
    destruct (Ascii.eqb a cr); [destruct (Ascii.eqb a' nl) |].
    + exact IH.
    + rewrite last_char_cons by now apply Hne. exact IH.
    + rewrite last_char_cons by now apply Hne. exact IH.
Qed.

(** X10: a newline at the very end of the contributors file makes no
    difference: a file that is not empty and does not end in a newline
    gives the same list with and without one added.  (Added to a file
    that already ends in a newline, or to the empty file, it gives one
    more, empty, contributor.) *)
Theorem contributors_final_newline (filename content : string) (s1 s2 : State) :
  content <> EmptyString ->
  last_char content <> Some nl ->
  fs s1 !! filename = Some content ->
  fs s2 !! filename = Some (content +:+ nlsep) ->
  fst (get_contributors_list filename s2) = fst (get_contributors_list filename s1)
  /\ fst (get_contributors_list filename
            (mkState (<[filename := (content +:+ nlsep) +:+ nlsep]> (fs s1)) (trace s1)))
     = result_map (fun contr => (contr ++ [EmptyString])%list)
         (fst (get_contributors_list filename s1)).
Proof.
  intros Hne Hlast H1 H2.
  rewrite (get_contributors_list_found _ _ _ H1).
  rewrite (get_contributors_list_found _ _ _ H2).
  erewrite get_contributors_list_found; [| apply lookup_insert_eq].
  cbn [fst result_map]. unfold file_lines.
  assert (Hnl : last_char (content +:+ nlsep) = Some nl).
  { unfold nlsep. now rewrite last_char_app. }
  assert (Hnlcr : Ascii.eqb nl cr = false) by reflexivity.
  rewrite (universal_newlines_app_nl (content +:+ nlsep)), Hnl, Hnlcr.
  rewrite (universal_newlines_app_nl content).
  destruct (last_char content) as [c |] eqn:Hc;
    [| exfalso; apply Hne; now apply last_char_none].
  destruct (Ascii.eqb c cr) eqn:Hcr.
  - apply Ascii.eqb_eq in Hcr. subst c.
    destruct (universal_newlines_last_cr content Hc) as [y Hy].
    split; [reflexivity |]. f_equal. rewrite Hy.
    rewrite append_assoc, lines_go_second_newline, map_app. reflexivity.
  - pose proof (universal_newlines_last_other content c Hc Hcr) as Hlast'.
    assert (Hne' : EmptyString +:+ universal_newlines content <> EmptyString).
    { cbn [String.append]. intros E. rewrite E in Hlast'. discriminate Hlast'. }
    assert (Hl' : last_char (EmptyString +:+ universal_newlines content) <> Some nl).
    { cbn [String.append]. rewrite Hlast'. congruence. }
    split.
    + f_equal. now apply lines_go_final_newline.
    + f_equal. rewrite append_assoc, lines_go_second_newline, map_app.
      rewrite lines_go_final_newline by assumption. reflexivity.
Qed.

Lemma contributors_final_newline_witness :
  fst (get_contributors_list "CONTRIBUTORS"
         (mkState (<["CONTRIBUTORS" := "Alice" +:+ nlsep]> ∅) []))
  = fst (get_contributors_list "CONTRIBUTORS"
           (mkState (<["CONTRIBUTORS" := "Alice"]> ∅) [])).
Proof.
  apply (contributors_final_newline "CONTRIBUTORS" "Alice").
  - discriminate.
  - discriminate.
  - apply lookup_insert_eq.
  - apply lookup_insert_eq.
Defined.

(** *** The contributors line of the meta module *)

Lemma repr_char_squote_one_line (c : ascii) :
  contains_char nl (repr_char squote c) = false.
Proof. destruct c as [[] [] [] [] [] [] [] []]; reflexivity. Qed.

Lemma repr_char_dquote_one_line (c : ascii) :
  contains_char nl (repr_char dquote c) = false.
Proof. destruct c as [[] [] [] [] [] [] [] []]; reflexivity. Qed.

Lemma repr_body_one_line (quote : ascii) (s : string) :
  (forall c, contains_char nl (repr_char quote c) = false) ->
  contains_char nl (repr_body quote s) = false.
Proof.
  intros Hq. induction s as [|c s IH]; [reflexivity |].
  cbn [repr_body]. now rewrite contains_char_app, Hq, IH.
Qed.

Lemma contains_char_cons (c a : ascii) (s : string) :
  contains_char c (String a s) = Ascii.eqb a c || contains_char c s.
Proof. reflexivity. Qed.

Lemma repr_str_one_line (s : string) : contains_char nl (repr_str s) = false.
Proof.
  unfold repr_str.
  destruct (contains_char squote s && negb (contains_char dquote s)).
  - rewrite contains_char_app, contains_char_cons.
    rewrite (repr_body_one_line dquote s repr_char_dquote_one_line). reflexivity.
  - rewrite contains_char_app, contains_char_cons.
    rewrite (repr_body_one_line squote s repr_char_squote_one_line). reflexivity.
Qed.

Lemma join_repr_one_line (l : list string) :
  contains_char nl (join ", " (map repr_str l)) = false.
Proof.
  induction l as [|x l IH]; [reflexivity |].
  cbn [map]. destruct l as [|y l].
  - cbn [map join]. apply repr_str_one_line.
  - rewrite join_cons by discriminate.
    rewrite !contains_char_app, repr_str_one_line, IH. reflexivity.
Qed.

Lemma str_of_list_one_line (l : list string) :
  contains_char nl (str_of_list l) = false.
Proof.
  unfold str_of_list.
  rewrite !contains_char_app, join_repr_one_line. reflexivity.
Qed.

(** X11: the contributors are written on one line.  Whatever the
    contributors file holds, the meta module ends with the text
    "contributors = ", a list literal without any newline in it, and one
    newline: control characters and quotes in a name are escaped. *)
Theorem contributors_on_one_line (g : Settings) (filename content : string)
                                 (s : State) :
  fs s !! "CONTRIBUTORS" = Some content ->
  exists (s' : State) (head line : string),
    write_meta g filename s = (Ok tt, s')
    /\ fs s' !! filename = Some (head +:+ "contributors = " +:+ line +:+ nlsep)
    /\ line = str_of_list (map strip (file_lines content))
    /\ contains_char nl line = false.
Proof.
  intros H.
  exists (mkState (<[filename := written_meta g (map strip (file_lines content))]> (fs s))
                  (trace s ++ [writing_notice])).
  exists (nlsep
          +:+ "# This file is automatically generated during the generation of setup.py"
          +:+ nlsep
          +:+ "# Copyright 2020, Caer" +:+ nlsep
          +:+ "author = '" +:+ AUTHOR_LONG g +:+ "'" +:+ nlsep
          +:+ "version = '" +:+ VERSION +:+ "'" +:+ nlsep
          +:+ "full_version = '" +:+ VERSION +:+ "'" +:+ nlsep
          +:+ "release = " +:+ str_of_bool ISRELEASED +:+ nlsep).
  exists (str_of_list (map strip (file_lines content))).
  split; [now apply write_meta_found |].
  split.
  - cbn [fs]. rewrite lookup_insert_eq. f_equal.
    unfold written_meta, meta_module_text.
    rewrite !append_assoc. reflexivity.
  - split; [reflexivity | apply str_of_list_one_line].
Qed.

Lemma contributors_on_one_line_witness :
  exists (s' : State) (head line : string),
    write_meta Examples.good_settings "caer/_meta.py" Examples.start = (Ok tt, s')
    /\ fs s' !! "caer/_meta.py" = Some (head +:+ "contributors = " +:+ line +:+ nlsep)
    /\ line = "['Alice', '', 'Bob']".
Proof.
  destruct (contributors_on_one_line Examples.good_settings "caer/_meta.py"
              Examples.alice_bob Examples.start)
    as (s' & head & line & Hrun & Hfile & Hline & _).
  - vm_compute. reflexivity.
  - exists s', head, line. split; [exact Hrun |]. split; [exact Hfile |].
    rewrite Hline. vm_compute. reflexivity.
Defined.

(** X12: [write_meta] writes its target only.  Whether it succeeds or
    raises, every other file is as it was, and its notice has been
    printed once. *)
Theorem write_meta_touches_target_only (g : Settings) (filename : string)
                                       (s : State) (path : string) :
  path <> filename ->
  fs (snd (write_meta g filename s)) !! path = fs s !! path
  /\ trace (snd (write_meta g filename s))
     = (trace s ++ [StdoutWrite ("[INFO] Writing _meta.py" +:+ nlsep)])%list.
Proof.
  intros Hne. destruct (fs s !! "CONTRIBUTORS") as [content |] eqn:Hc.
  - rewrite (write_meta_found g filename content s Hc). cbn [snd fs trace].
    split; [| reflexivity]. apply lookup_insert_ne. congruence.
  - rewrite (write_meta_missing g filename s Hc). split; reflexivity.
Qed.

Lemma write_meta_touches_target_only_witness :
  fs (snd (write_meta Examples.good_settings "caer/_meta.py" Examples.start))
    !! "LONG_DESCRIPTION.md"
  = Some "Caer".
Proof.
  destruct (write_meta_touches_target_only Examples.good_settings "caer/_meta.py"
              Examples.start "LONG_DESCRIPTION.md") as [Hframe _].
  - discriminate.
  - rewrite Hframe. vm_compute. reflexivity.
Defined.

(** *** The child process *)

Lemma path_join_relative (path b : string) (rest : list string) :
  startswith "/" b = false ->
  path_join path (b :: rest)
  = match last_char path with
    | None => path_join (path +:+ b) rest
    | Some c =>
        if Ascii.eqb c "/" then path_join (path +:+ b) rest
        else path_join (path +:+ "/" +:+ b) rest
    end.
Proof. intros H. cbn [path_join]. now rewrite H. Qed.

Lemma cythonize_script_path (d : string) :
  path_join d ["tools"; "cythonize.py"]
  = d +:+ (match last_char d with
           | None => EmptyString
           | Some c => if Ascii.eqb c "/" then EmptyString else "/"
           end) +:+ "tools/cythonize.py".
Proof.
  assert (Htools : forall a : string,
             path_join (a +:+ "tools") ["cythonize.py"]
             = a +:+ "tools/cythonize.py").
  { intros a. rewrite path_join_relative by reflexivity.
    rewrite last_char_app. cbn [last_char].
    change (Ascii.eqb "s" "/") with false. cbv iota.
    cbn [path_join]. rewrite !append_assoc. reflexivity. }
  rewrite path_join_relative by reflexivity.
  destruct (last_char d) as [c |].
  - destruct (Ascii.eqb c "/").
    + now rewrite Htools.
    + rewrite <- append_assoc. rewrite Htools. now rewrite append_assoc.
  - now rewrite Htools.
Qed.

(** X13: whatever the exit status, [generate_cython] prints its notice
    and starts the child exactly once, with the running interpreter and
    the script [tools/cythonize.py] under the script's directory as
    arguments and that directory as working directory; no second slash
    is put after a directory that ends in one.  The script itself
    changes no file in doing so. *)
Theorem generation_calls_child_once (w : World) (s : State) :
  exists script : string,
    script
    = script_dir w
      +:+ (match last_char (script_dir w) with
           | None => EmptyString
           | Some c => if Ascii.eqb c "/" then EmptyString else "/"
           end)
      +:+ "tools/cythonize.py"
    /\ fs (snd (generate_cython w s)) = fs s
    /\ trace (snd (generate_cython w s))
       = (trace s
          ++ [ StdoutWrite ("[INFO] Cythonizing sources" +:+ nlsep);
               SubprocessCall [sys_executable w; script] (script_dir w) ])%list.
Proof.
  eexists. split; [reflexivity |].
  rewrite generate_cython_spec. cbn [snd logged fs trace].
  split; [reflexivity |].
  unfold generation_events, cythonize_argv. now rewrite cythonize_script_path.
Qed.

(** *** Runs of the whole script *)

Lemma run_ending (w : World) (files : gmap string string) :
  ending w (mkState files []) (fst (run w files)) (snd (run w files)).
Proof. unfold run. apply main_ending. Qed.

(** X14: whatever goes wrong while the settings are loaded -- a
    missing section, setting or long description -- the run ends with
    that very exception and has done nothing: no descriptor has been
    built, nothing has been printed and no file written. *)
Theorem loading_failure_ends_run (w : World) (files : gmap string string) (e : exn) :
  ~ below_minimum (sys_version_info w) ->
  fst (load_metadata w (mkState files [])) = Raise e ->
  run w files = (Raise e, mkState files []).
Proof. intros Hgate Hload. unfold run. now apply main_load_failed. Qed.

Lemma loading_failure_ends_run_witness :
  run Examples.thirteen_world Examples.files
  = (Raise (KeyError "git_url"), mkState Examples.files []).
Proof.
  apply loading_failure_ends_run.
  - unfold below_minimum. simpl. lia.
  - vm_compute. reflexivity.
Defined.

(** X15: when the settings load but the contributors file does not
    exist, the run ends with [FileNotFoundError] after the descriptors
    have been built and the notice printed: the child is not started,
    [setup] is not called and no file is changed. *)
Theorem missing_contributors_ends_run (w : World) (files : gmap string string)
                                      (g : Settings) :
  ~ below_minimum (sys_version_info w) ->
  fst (load_metadata w (mkState files [])) = Ok g ->
  files !! "CONTRIBUTORS" = None ->
  run w files
  = (Raise (FileNotFoundError "CONTRIBUTORS"),
     mkState files (built_events w ++ [writing_notice])).
Proof.
  intros Hgate Hload Hc. unfold run.
  rewrite (main_loaded w _ g Hgate Hload).
  now rewrite (setup_package_missing w g _ (logged (mkState files []) (built_events w)) Hc).
Qed.

Lemma missing_contributors_ends_run_witness :
  fst (run Examples.good_world (delete "CONTRIBUTORS" Examples.files))
  = Raise (FileNotFoundError "CONTRIBUTORS").
Proof.
  rewrite (missing_contributors_ends_run Examples.good_world
             (delete "CONTRIBUTORS" Examples.files) Examples.good_settings).
  - reflexivity.
  - unfold below_minimum. simpl. lia.
  - vm_compute. reflexivity.
  - apply lookup_delete_eq.
Defined.

(** X16: the script does not take the meta module back when the
    generation fails.  It writes [caer/_meta.py] before it starts the
    child, and when the child exits with a status other than zero the
    run ends with the generation error without the script touching the
    file again: as far as the script's own statements go, it holds the
    newly written text.  (What the child itself writes is not recorded
    in the file store.) *)
Theorem failed_generation_keeps_meta (w : World) (files : gmap string string)
                                     (g : Settings) (content : string) :
  ~ below_minimum (sys_version_info w) ->
  fst (load_metadata w (mkState files [])) = Ok g ->
  files !! "CONTRIBUTORS" = Some content ->
  returncode (cythonize w) <> 0%Z ->
  fst (run w files) = Raise generation_error
  /\ fs (snd (run w files)) !! "caer/_meta.py"
     = Some (written_meta g (map strip (file_lines content))).
Proof.
  intros Hgate Hload Hc Hrc. unfold run.
  rewrite (main_loaded w _ g Hgate Hload).
  rewrite (setup_package_failed w g _ content
             (logged (mkState files []) (built_events w)) Hc Hrc).
  split; [reflexivity |]. cbn [snd logged meta_written fs].
  apply lookup_insert_eq.
Qed.

Lemma failed_generation_keeps_meta_witness :
  fst (run Examples.failing_world Examples.files) = Raise generation_error
  /\ fs (snd (run Examples.failing_world Examples.files)) !! "caer/_meta.py"
     = Some (written_meta Examples.good_settings ["Alice"; ""; "Bob"]).
Proof.
  destruct (failed_generation_keeps_meta Examples.failing_world Examples.files
              Examples.good_settings Examples.alice_bob) as [Hr Hfs].
  - unfold below_minimum. simpl. lia.
  - vm_compute. reflexivity.
  - vm_compute. reflexivity.
  - discriminate.
  - split; [exact Hr |]. rewrite Hfs. reflexivity.
Defined.

(** X17: when the child exits with status zero, [setup] is called
    once, last, with the loaded settings: the version is "1.3.3", the
    maintainer is the author, the extension modules are the descriptors
    of [EXTENSIONS] and [build_ext] is mapped to the script's command
    class.  The run ends the way [setup] ends: an exception raised by
    the backend is the exception of the run. *)
Theorem delegation_hands_over_settings (w : World) (files : gmap string string)
                                       (g : Settings) (content : string) :
  ~ below_minimum (sys_version_info w) ->
  fst (load_metadata w (mkState files [])) = Ok g ->
  files !! "CONTRIBUTORS" = Some content ->
  returncode (cythonize w) = 0%Z ->
  exists md : Metadata,
    fst (run w files)
    = match setup_raises w with Some e => Raise e | None => Ok tt end
    /\ trace (snd (run w files))
       = (built_events w ++ [writing_notice] ++ generation_events w
          ++ [SetupCall md])%list
    /\ md_version md = "1.3.3"
    /\ md_name md = NAME g
    /\ md_maintainer md = AUTHOR g
    /\ md_author md = AUTHOR g
    /\ md_ext_modules md = descriptors w EXTENSIONS
    /\ md_cmdclass md = [("build_ext", build_extension_class_entry)]
    /\ md_install_requires md = REQUIREMENTS g
    /\ md_classifiers md = CLASSIFIERS g.
Proof.
  intros Hgate Hload Hc Hrc.
  exists (metadata_of g (descriptors w EXTENSIONS)). unfold run.
  rewrite (main_loaded w _ g Hgate Hload).
  rewrite (setup_package_delegated w g _ content
             (logged (mkState files []) (built_events w)) Hc Hrc).
  cbn [fst snd logged meta_written trace app].
  split; [reflexivity |]. split; [now rewrite <- !app_assoc |].
  split; [reflexivity |]. split; [reflexivity |]. split; [reflexivity |].
  split; [reflexivity |]. split; [reflexivity |]. split; [reflexivity |].
  split; reflexivity.
Qed.

Lemma delegation_hands_over_settings_witness :
  exists md : Metadata,
    fst (run Examples.good_world Examples.files) = Ok tt
    /\ md_ext_modules md = descriptors Examples.good_world EXTENSIONS.
Proof.
  destruct (delegation_hands_over_settings Examples.good_world Examples.files
              Examples.good_settings Examples.alice_bob)
    as (md & Hr & _ & _ & _ & _ & _ & Hext & _).
  - unfold below_minimum. simpl. lia.
  - vm_compute. reflexivity.
  - vm_compute. reflexivity.
  - reflexivity.
  - exists md. split; [exact Hr | exact Hext].
Defined.

(** X18: a run can end without an exception only if the interpreter
    meets the minimum, the settings load, the contributors file exists,
    the child exits with status zero and [setup] raises nothing. *)
Theorem run_succeeds_only_if (w : World) (files : gmap string string) :
  fst (run w files) = Ok tt ->
  ~ below_minimum (sys_version_info w)
  /\ (exists g, fst (load_metadata w (mkState files [])) = Ok g)
  /\ is_Some (files !! "CONTRIBUTORS")
  /\ returncode (cythonize w) = 0%Z
  /\ setup_raises w = None.
Proof.
  intros Hok. pose proof (run_ending w files) as Hend.
  rewrite Hok in Hend.
  inversion Hend as [Hf | Hf Hb | e Hb Hl | g Hb Hl Hc | g content Hb Hl Hc Hrc
                     | g content Hb Hl Hc Hrc Hres].
  split; [exact Hb |]. split; [now exists g |].
  split; [now exists content |]. split; [exact Hrc |].
  destruct (setup_raises w); [discriminate Hres | reflexivity].
Qed.

Lemma run_succeeds_only_if_witness :
  fst (run Examples.good_world Examples.files) = Ok tt
  /\ returncode (cythonize Examples.good_world) = 0%Z
  /\ setup_raises Examples.good_world = None.
Proof.
  assert (H : fst (run Examples.good_world Examples.files) = Ok tt)
    by (vm_compute; reflexivity).
  destruct (run_succeeds_only_if Examples.good_world Examples.files H)
    as (_ & _ & _ & Hrc & Hs).
  split; [exact H |]. split; [exact Hrc | exact Hs].
Defined.

(** X19: the script's own statements write one file.  In every run,
    however it ends, they leave each file other than [caer/_meta.py]
    with what it held at the start. *)
Theorem run_writes_meta_module_only (w : World) (files : gmap string string)
                                    (path : string) :
  path <> "caer/_meta.py" ->
  fs (snd (run w files)) !! path = files !! path.
Proof.
  intros Hne. pose proof (run_ending w files) as Hend.
  destruct (run w files) as [r s']. cbn [fst snd] in *.
  inversion Hend as [Hf | Hf Hb | e Hb Hl | g Hb Hl Hc | g content Hb Hl Hc Hrc
                     | g content Hb Hl Hc Hrc]; subst;
    cbn [fs logged meta_written]; try reflexivity;
    apply lookup_insert_ne; congruence.
Qed.

Lemma run_writes_meta_module_only_witness :
  fs (snd (run Examples.good_world Examples.files)) !! "CONTRIBUTORS"
  = Some Examples.alice_bob.
Proof.
  rewrite run_writes_meta_module_only by discriminate.
  apply lookup_insert_eq.
Defined.
